(** * pycaching: the [Geocaching] session object, its login state machine
      and its two search generators

    A shallow embedding of [pycaching/geocaching.py].  The object's mutable
    fields ([_logged_in], [_session]) and the calls it makes on the network
    are threaded through a state-and-exception monad.  Everything the module
    imports (requests, bs4, the credential file, the Cache / Point / Area
    classes) is an external collaborator: it is observed through exactly the
    calls the source makes on it and is supplied by a record of externals. *)

From Stdlib Require Import ZArith Ascii String Lia.
From stdpp Require Import base option list strings gmap.

Local Open Scope string_scope.
Local Open Scope list_scope.

(** ** Python values, exceptions and results *)

(** Exception classes the module raises, catches or lets through.  A
    constructor stands for the class and its subclasses; [RequestException]
    is [requests.exceptions.RequestException], [cls] naming the subclass
    that was raised (ConnectionError, Timeout, HTTPError, ...). *)
Inductive exn : Type :=
| NotLoggedInException (msg : string)
| LoginFailedException (msg : string)
| Error (msg : string)
| RequestException (cls : string)
| StopIteration
| RuntimeError (msg : string)
| AttributeError
| IndexError
| KeyError
| TypeError
| ValueError
| FileNotFoundError
| IOError
| OtherException (cls : string).

(** [isinstance(e, requests.exceptions.RequestException)]. *)
Definition is_RequestException (e : exn) : bool :=
  match e with RequestException _ => true | _ => false end.

(** The outcome of a Python expression: a value, or a raised exception. *)
Inductive Result (A : Type) : Type :=
| Return (a : A)
| Raise (e : exn).
Arguments Return {A} a.
Arguments Raise {A} e.

Definition rbind {A B} (r : Result A) (k : A -> Result B) : Result B :=
  match r with Return a => k a | Raise e => Raise e end.

(** Values that travel as arguments, JSON documents and form fields.  A
    float is kept by its [repr]. *)
#[warnings="-register-all"]
Inductive PyVal : Type :=
| VNone
| VBool (b : bool)
| VInt (z : Z)
| VFloat (repr : string)
| VStr (s : string)
| VList (l : list PyVal)
| VDict (d : list (string * PyVal)).

Definition str_nonempty (s : string) : bool :=
  match s with EmptyString => false | _ => true end.

(** [bool(v)]. *)
Definition truthy (v : PyVal) : bool :=
  match v with
  | VNone => false
  | VBool b => b
  | VInt z => negb (Z.eqb z 0)
  | VFloat r => negb (String.eqb r "0.0" || String.eqb r "-0.0")
  | VStr s => str_nonempty s
  | VList l => match l with [] => false | _ => true end
  | VDict d => match d with [] => false | _ => true end
  end.

(** [s == v] for a str [s]: only an equal str compares equal. *)
Definition str_eq (s : string) (v : PyVal) : bool :=
  match v with VStr u => String.eqb s u | _ => false end.

Fixpoint assoc_lookup (k : string) (d : list (string * PyVal)) : option PyVal :=
  match d with
  | [] => None
  | (k', v) :: d' => if String.eqb k k' then Some v else assoc_lookup k d'
  end.

(** [v[key]] for a str key. *)
Definition getitem (v : PyVal) (key : string) : Result PyVal :=
  match v with
  | VDict d => match assoc_lookup key d with Some x => Return x | None => Raise KeyError end
  | _ => Raise TypeError
  end.

(** ** Strings *)

(** [needle in s]. *)
Fixpoint prefixb (p s : string) : bool :=
  match p, s with
  | EmptyString, _ => true
  | String a p', String b s' => Ascii.eqb a b && prefixb p' s'
  | String _ _, EmptyString => false
  end.

Fixpoint contains (needle s : string) : bool :=
  prefixb needle s ||
  match s with
  | EmptyString => false
  | String _ s' => contains needle s'
  end.

(** [s.split(sep)] for a one-character separator: never an empty list. *)
Fixpoint split (sep : ascii) (s : string) : list string :=
  match s with
  | EmptyString => [EmptyString]
  | String c s' =>
      if Ascii.eqb c sep then EmptyString :: split sep s'
      else match split sep s' with
           | [] => [String c EmptyString]
           | w :: ws => String c w :: ws
           end
  end.

(** [c.isspace()] on code points below 256. *)
Definition isspace (c : ascii) : bool :=
  let n := nat_of_ascii c in
  ((9 <=? n)%nat && (n <=? 13)%nat) || ((28 <=? n)%nat && (n <=? 32)%nat)
  || (n =? 133)%nat || (n =? 160)%nat.

Fixpoint lstrip (s : string) : string :=
  match s with
  | String c s' => if isspace c then lstrip s' else s
  | EmptyString => EmptyString
  end.

Fixpoint rstrip (s : string) : string :=
  match s with
  | EmptyString => EmptyString
  | String c s' =>
      match rstrip s' with
      | EmptyString => if isspace c then EmptyString else String c EmptyString
      | r => String c r
      end
  end.

(** [s.strip()]. *)
Definition strip (s : string) : string := rstrip (lstrip s).

(** [s[n:]]. *)
Fixpoint slice_from (n : nat) (s : string) : string :=
  match n, s with
  | O, _ => s
  | S n', String _ s' => slice_from n' s'
  | S _, EmptyString => EmptyString
  end.

(** ** Markup and HTTP objects, by what the module asks of them *)

(** One [<input>] of the login form: its [type], [name] and [value]
    attributes, each absent or present. *)
Record Input : Type := mkInput {
  input_type : option string;
  input_name : option string;
  input_value : option string }.

(** One [<tr>] of a result page.  A field holds what the corresponding
    [row.find(...)] gives: [None] when no element matches, the element's
    [.text] otherwise; markers are kept by their presence. *)
Record Row : Type := mkRow {
  span_cache_details : option string;   (* row.find("span", "cache-details") *)
  span_cache_name : option string;      (* row.find("span", "cache-name") *)
  img_found_it : bool;                  (* row.find("img", title="Found It!") *)
  col_FavoritePoint : option string;    (* data-column = FavoritePoint *)
  row_class : option (list string);     (* row.get("class") *)
  td_pm_upsell : bool;                  (* row.find("td", "pm-upsell") *)
  col_ContainerSize : option string;
  col_Difficulty : option string;
  col_Terrain : option string;
  col_PlaceDate : option string;
  span_owner : option string }.         (* row.find("span", "owner") *)

(** A bs4 element or document.
    - [tag_bool]: its truth value, [bool(tag)], as the markup library
      decides it;
    - [tag_LoggedIn]: [find("div", "LoggedIn")], then [find("strong")],
      then [.text]; the outer option is the div, the inner the strong;
    - [tag_inputs]: the [<input>] elements in document order;
    - [tag_geocaches]: [find(id="geocaches")];
    - [tag_trs]: [find_all("tr")]. *)
#[warnings="-register-all"]
Inductive Tag : Type := mkTag {
  tag_bool : bool;
  tag_LoggedIn : option (option string);
  tag_inputs : list Input;
  tag_geocaches : option Tag;
  tag_trs : list Row }.

(** A [requests.Response]: what [raise_for_status()] raises, [res.text],
    and what [res.json()] gives. *)
Record Response : Type := mkResponse {
  raise_for_status : option exn;
  text : string;
  json : Result PyVal }.

(** The keyword arguments this module passes on to [requests]. *)
Record Kwargs : Type := mkKwargs {
  params : option (gmap string PyVal);
  data : option (gmap string PyVal) }.

Definition no_kwargs : Kwargs := {| params := None; data := None |}.

(** A [requests.Session], by its cookie jar. *)
Record Session : Type := mkSession { cookies : gmap string string }.

(** [requests.Session()]. *)
Definition new_Session : Session := {| cookies := ∅ |}.

(** What the object did, in order: the HTTP calls it issued, each with the
    session it went through, and the logouts it performed. *)
Inductive Event : Type :=
| EvRequest (session : Session) (method url : string) (kwargs : Kwargs)
| EvLogout.

(** What [_request] hands back, by the [expect] parameter. *)
Inductive Loaded : Type :=
| LSoup (t : Tag)
| LJson (v : PyVal)
| LRaw (r : Response)
| LNone.

(** ** The object and the monad *)

(** The two fields of a [Geocaching] instance, and the history of its
    actions. *)
Record State : Type := mkState {
  _logged_in : bool;
  _session : Session;
  trace : list Event }.

(** [Geocaching()]. *)
Definition __init__ : State :=
  {| _logged_in := false; _session := new_Session; trace := [] |}.

Definition M (A : Type) : Type := State -> Result A * State.

Definition ret {A} (a : A) : M A := fun st => (Return a, st).
Definition raise {A} (e : exn) : M A := fun st => (Raise e, st).
Definition lift {A} (r : Result A) : M A := fun st => (r, st).
Definition bind {A B} (m : M A) (k : A -> M B) : M B :=
  fun st =>
    match m st with
    | (Return a, st') => k a st'
    | (Raise e, st') => (Raise e, st')
    end.

Declare Scope py_scope.
Delimit Scope py_scope with py.
Notation "'do' x <- m ; k" := (bind m (fun x => k))
  (at level 10, x name, m at level 100, k at level 200) : py_scope.
Notation "'try' x <- r ; k" := (rbind r (fun x => k))
  (at level 10, x name, r at level 100, k at level 200) : py_scope.
Local Open Scope py_scope.

(** The object after an HTTP call that left its session as [session]. *)
Definition sent (st : State) (session : Session) (method url : string)
    (kwargs : Kwargs) : State :=
  {| _logged_in := _logged_in st;
     _session := session;
     trace := trace st ++ [EvRequest (_session st) method url kwargs] |}.


(** ** External collaborators *)

Definition CacheType : Type := string.   (* a member of pycaching.cache.Type *)
Definition CacheSize : Type := string.   (* a member of pycaching.cache.Size *)
Definition PyFloat : Type := string.     (* a float, by its repr *)

(** A [datetime.date]. *)
Record Date : Type := mkDate { year : Z; month : Z; day : Z }.

(** What the module calls and does not define.
    - [urljoin]: [urllib.parse.urljoin];
    - [session_request]: [session.request(method, url, **kwargs)].  The
      answer may depend on all that happened before and on the session; the
      call may change the session's cookies;
    - [BeautifulSoup]: [bs4.BeautifulSoup(markup, "html.parser")];
    - [isfile], [home_join], [json_load]: [path.isfile],
      [path.join(path.expanduser("~"), name)], and [open] followed by
      [json.load];
    - [int], [float]: the builtins, on a str;
    - [Type_from_string], [Size_from_string], [parse_date]: the parsers of
      [pycaching.cache] and [pycaching.util]. *)
Record Externals : Type := mkExternals {
  urljoin : string -> string -> string;
  session_request :
    list Event -> Session -> string -> string -> Kwargs -> Result Response * Session;
  BeautifulSoup : string -> Result Tag;
  isfile : string -> bool;
  home_join : string -> string;
  json_load : string -> Result PyVal;
  int : string -> Result Z;
  float : string -> Result PyFloat;
  Type_from_string : string -> Result CacheType;
  Size_from_string : string -> Result CacheSize;
  parse_date : string -> Result Date }.

(** A [pycaching.geo.Point], by what [point.format(None, "", "", "")]
    gives. *)
Record Point : Type := mkPoint { format : string }.

(** ** Class attributes *)

Definition _baseurl : string := "https://www.geocaching.com".

Definition _urls (key : string) : string :=
  if String.eqb key "login_page" then "login/default.aspx"
  else if String.eqb key "search" then "play/search"
  else if String.eqb key "search_more" then "play/search/more-results"
  else "".

Definition _credentials_file : string := ".gc_credentials".

Section Geocaching.

Variable E : Externals.

(** ** [_request] *)

(** The target of a request: [url if "//" in url else urljoin(_baseurl, url)]. *)
Definition resolve (url : string) : string :=
  if contains "//" url then url else urljoin E _baseurl url.

(** The body of the [try]: status check, then decoding by [expect]. *)
Definition decode (expect : string) (res : Result Response) : Result Loaded :=
  try res <- res;
  try _ <- match raise_for_status res with
           | Some e => Raise e
           | None => Return tt
           end;
  if String.eqb expect "soup" then
    try soup <- BeautifulSoup E (text res); Return (LSoup soup)
  else if String.eqb expect "json" then
    try v <- json res; Return (LJson v)
  else if String.eqb expect "raw" then Return (LRaw res)
  else Return LNone.

(** [except requests.exceptions.RequestException as e: raise Error(...) from e] *)
Definition except_RequestException {A} (url : string) (r : Result A) : Result A :=
  match r with
  | Raise e =>
      if is_RequestException e then Raise (Error ("Cannot load page: " +:+ url))
      else Raise e
  | Return a => Return a
  end.

Definition _request (url : string) (expect method : string) (login_check : bool)
    (kwargs : Kwargs) : M Loaded :=
  fun st =>
    if login_check && negb (_logged_in st) then
      (Raise (NotLoggedInException "Login is needed."), st)
    else
      let url := resolve url in
      let '(res, session) :=
        session_request E (trace st) (_session st) method url kwargs in
      (except_RequestException url (decode expect res),
       sent st session method url kwargs).

(** The document of a [_request(..., expect="soup")]; calling [find] on
    anything else is an AttributeError. *)
Definition soup_of (l : Loaded) : Result Tag :=
  match l with LSoup t => Return t | _ => Raise AttributeError end.

(** ** [logout], [get_logged_user], [_load_credentials] *)

(** [self._logged_in = b]. *)
Definition set_logged_in (b : bool) : M unit :=
  fun st =>
    (Return tt,
     {| _logged_in := b; _session := _session st; trace := trace st |}).

(** The truth value of what [get_logged_user] returns. *)
Definition opt_truthy (logged : option string) : bool :=
  match logged with Some name => str_nonempty name | None => false end.

Definition logout : M unit :=
  fun st =>
    (Return tt,
     {| _logged_in := false;
        _session := new_Session;
        trace := trace st ++ [EvLogout] |}).

(** [page.find("div", "LoggedIn").find("strong").text], an AttributeError
    on the way giving [None]. *)
Definition marker_text (page : Tag) : option string :=
  match tag_LoggedIn page with
  | Some (Some text) => Some text
  | _ => None
  end.

(** [login_page or self._request(...)], then the marker's text. *)
Definition get_logged_user (login_page : option Tag) : M (option string) :=
  do login_page <-
     match login_page with
     | Some page =>
         if tag_bool page then ret page
         else do l <- _request (_urls "login_page") "soup" "GET" false no_kwargs;
              lift (soup_of l)
     | None =>
         do l <- _request (_urls "login_page") "soup" "GET" false no_kwargs;
         lift (soup_of l)
     end;
  ret (marker_text login_page).

Definition _load_credentials : Result (PyVal * PyVal) :=
  try credentials_file <-
      (if isfile E _credentials_file then Return _credentials_file
       else
         let credentials_file := home_join E _credentials_file in
         if isfile E credentials_file then Return credentials_file
         else Raise FileNotFoundError);
  try credentials <- json_load E credentials_file;
  try username <- getitem credentials "username";
  try password <- getitem credentials "password";
  Return (username, password).

(** ** [login] *)

(** [logged == username], for what [get_logged_user] returned. *)
Definition logged_eq (logged : option string) (username : PyVal) : bool :=
  match logged with
  | Some name => str_eq name username
  | None => match username with VNone => true | _ => false end
  end.

(** [{field["name"]: val for field, val in pairs}], a later pair winning. *)
Fixpoint name_dict (pairs : list (Input * PyVal)) (acc : gmap string PyVal)
    : Result (gmap string PyVal) :=
  match pairs with
  | [] => Return acc
  | (field, val) :: rest =>
      match input_name field with
      | None => Raise KeyError
      | Some name => name_dict rest (<[name := val]> acc)
      end
  end.

(** [{field["name"]: field["value"] for field in fields}]. *)
Fixpoint name_value_dict (fields : list Input) (acc : gmap string PyVal)
    : Result (gmap string PyVal) :=
  match fields with
  | [] => Return acc
  | field :: rest =>
      match input_name field, input_value field with
      | Some name, Some value => name_value_dict rest (<[name := VStr value]> acc)
      | _, _ => Raise KeyError
      end
  end.

(** [zip]. *)
Fixpoint zip {A B} (l : list A) (k : list B) : list (A * B) :=
  match l, k with
  | a :: l', b :: k' => (a, b) :: zip l' k'
  | _, _ => []
  end.

(** [page.find_all("input", type=types)]. *)
Definition find_all_input (page : Tag) (types : list string) : list Input :=
  List.filter (fun field =>
                 match input_type field with
                 | Some t => existsb (String.eqb t) types
                 | None => false
                 end) (tag_inputs page).

(** The credentials [login] goes on with. *)
Definition credentials (username password : PyVal) : Result (PyVal * PyVal) :=
  if negb (truthy username) || negb (truthy password) then
    match _load_credentials with
    | Raise FileNotFoundError =>
        Raise (LoginFailedException
                 "Credentials file not found and no username and password is given.")
    | Raise ValueError =>
        Raise (LoginFailedException "Wrong format of credentials file.")
    | Raise KeyError =>
        Raise (LoginFailedException
                 "Credentials file doesn't contain username and password.")
    | Raise IOError =>
        Raise (LoginFailedException "Credentials file reading error.")
    | r => r
    end
  else Return (username, password).

(** The form [login] posts. *)
Definition assemble_post (login_page : Tag) (username password : PyVal)
    : Result (gmap string PyVal) :=
  let post : gmap string PyVal := ∅ in
  let login_elements := find_all_input login_page ["text"; "password"; "checkbox"] in
  try d <- name_dict (zip login_elements [username; password; VInt 1]) ∅;
  let post := d ∪ post in
  let other_elements := find_all_input login_page ["hidden"; "submit"] in
  try d <- name_value_dict other_elements ∅;
  Return (d ∪ post).

(** The rest of [login], from "continue logging in": assemble the form,
    post it, check the answer. *)
Definition submit (login_page : Tag) (username password : PyVal) : M unit :=
  do post <- lift (assemble_post login_page username password);
  do l <- _request (_urls "login_page") "soup" "POST" false
            {| params := None; data := Some post |};
  do after_login_page <- lift (soup_of l);
  do logged <- get_logged_user (Some after_login_page);
  if opt_truthy logged then set_logged_in true
  else
    do _ <- logout;
    raise (LoginFailedException
             "Cannot login to the site (probably wrong username or password).").

Definition login (username password : PyVal) : M unit :=
  do creds <- lift (credentials username password);
  let username := fst creds in
  let password := snd creds in
  do l <- _request (_urls "login_page") "soup" "GET" false no_kwargs;
  do login_page <- lift (soup_of l);
  do logged <- get_logged_user (Some login_page);
  if opt_truthy logged then
    if logged_eq logged username then set_logged_in true
    else
      do _ <- logout;
      submit login_page username password
  else submit login_page username password.

End Geocaching.

(** ** Caches *)

(** Modelled from the spec: the [Cache] class ([pycaching.cache]) is not
    part of this file.  An entity is the record of the attributes the two
    searches fill, each unset ([None]) until it is assigned; [Cache(gc, wp)]
    sets the waypoint only, and reading an attribute gives what was stored. *)
Module Cache.

Record t : Type := mk {
  wp : option string;
  type : option CacheType;
  name : option string;
  found : option bool;
  favorites : option Z;
  state : option bool;
  pm_only : option bool;
  size : option CacheSize;
  difficulty : option PyFloat;
  terrain : option PyFloat;
  hidden : option Date;
  author : option string;
  location : option Point }.

(** [Cache(gc, wp)]. *)
Definition new (w : string) : t :=
  mk (Some w) None None None None None None None None None None None None.

Definition set_type (v : CacheType) (c : t) : t :=
  mk (wp c) (Some v) (name c) (found c) (favorites c) (state c) (pm_only c)
     (size c) (difficulty c) (terrain c) (hidden c) (author c) (location c).
Definition set_name (v : string) (c : t) : t :=
  mk (wp c) (type c) (Some v) (found c) (favorites c) (state c) (pm_only c)
     (size c) (difficulty c) (terrain c) (hidden c) (author c) (location c).
Definition set_found (v : bool) (c : t) : t :=
  mk (wp c) (type c) (name c) (Some v) (favorites c) (state c) (pm_only c)
     (size c) (difficulty c) (terrain c) (hidden c) (author c) (location c).
Definition set_favorites (v : Z) (c : t) : t :=
  mk (wp c) (type c) (name c) (found c) (Some v) (state c) (pm_only c)
     (size c) (difficulty c) (terrain c) (hidden c) (author c) (location c).
Definition set_state (v : bool) (c : t) : t :=
  mk (wp c) (type c) (name c) (found c) (favorites c) (Some v) (pm_only c)
     (size c) (difficulty c) (terrain c) (hidden c) (author c) (location c).
Definition set_pm_only (v : bool) (c : t) : t :=
  mk (wp c) (type c) (name c) (found c) (favorites c) (state c) (Some v)
     (size c) (difficulty c) (terrain c) (hidden c) (author c) (location c).
Definition set_size (v : CacheSize) (c : t) : t :=
  mk (wp c) (type c) (name c) (found c) (favorites c) (state c) (pm_only c)
     (Some v) (difficulty c) (terrain c) (hidden c) (author c) (location c).
Definition set_difficulty (v : PyFloat) (c : t) : t :=
  mk (wp c) (type c) (name c) (found c) (favorites c) (state c) (pm_only c)
     (size c) (Some v) (terrain c) (hidden c) (author c) (location c).
Definition set_terrain (v : PyFloat) (c : t) : t :=
  mk (wp c) (type c) (name c) (found c) (favorites c) (state c) (pm_only c)
     (size c) (difficulty c) (Some v) (hidden c) (author c) (location c).
Definition set_hidden (v : Date) (c : t) : t :=
  mk (wp c) (type c) (name c) (found c) (favorites c) (state c) (pm_only c)
     (size c) (difficulty c) (terrain c) (Some v) (author c) (location c).
Definition set_author (v : string) (c : t) : t :=
  mk (wp c) (type c) (name c) (found c) (favorites c) (state c) (pm_only c)
     (size c) (difficulty c) (terrain c) (hidden c) (Some v) (location c).

End Cache.

(** ** Generators *)

(** How a generator, driven to its end, ends for its consumer: exhausted
    ([next] raises StopIteration and a [for] loop over it finishes), failed
    with an exception, or still running when the fuel of the model ran
    out. *)
Inductive Ending : Type :=
| Exhausted
| Failed (e : exn)
| Running.

(** How the body of a generator function stops: it returns, it raises, or
    it has not stopped yet. *)
Inductive Body : Type :=
| BodyReturn
| BodyRaise (e : exn)
| BodyRunning.

(** The generator protocol.  A body that returns exhausts the generator.
    A StopIteration raised inside the body reaches the consumer as it is,
    and so exhausts the generator too, unless PEP 479 is in force
    ([generator_stop]: Python 3.7 and later, or the __future__ import this
    file does not have), which turns it into a RuntimeError. *)
Definition generator_end (generator_stop : bool) (b : Body) : Ending :=
  match b with
  | BodyReturn => Exhausted
  | BodyRaise StopIteration =>
      if generator_stop then Failed (RuntimeError "generator raised StopIteration")
      else Exhausted
  | BodyRaise e => Failed e
  | BodyRunning => Running
  end.

(** The [limit] of [search]: [float("inf")] or an int. *)
Inductive Limit : Type :=
| inf
| count (n : Z).

(** [limit - 1] and [limit < 0]. *)
Definition decrement (limit : Limit) : Limit :=
  match limit with inf => inf | count n => count (n - 1) end.
Definition negative (limit : Limit) : bool :=
  match limit with inf => false | count n => (n <? 0)%Z end.

(** [enumerate(rows, start)]. *)
Fixpoint enumerate {A} (rows : list A) (start : nat) : list (nat * A) :=
  match rows with
  | [] => []
  | row :: rest => (start, row) :: enumerate rest (S start)
  end.

Section Search.

Variable E : Externals.

(** [found.text]: an AttributeError when [find] gave [None]. *)
Definition text_of (found : option string) : Result string :=
  match found with Some t => Return t | None => Raise AttributeError end.

(** [row.get("class") and "disabled" in row.get("class")], as a truth
    value: an absent or empty class list is false. *)
Definition disabled (row : Row) : bool :=
  match row_class row with
  | Some (cl :: cls) => existsb (String.eqb "disabled") (cl :: cls)
  | _ => false
  end.

(** The attributes every row has: the statements of the loop body from
    "parse raw data" to [c.pm_only = ...]. *)
Definition parse_common (row : Row) : Result Cache.t :=
  try details <- text_of (span_cache_details row);
  match split "|" details with
  | d0 :: d1 :: _ =>
      let wp := strip d1 in
      let c := Cache.new wp in
      try type <- Type_from_string E (strip d0);
      let c := Cache.set_type type c in
      try name <- text_of (span_cache_name row);
      let c := Cache.set_name name c in
      let c := Cache.set_found (img_found_it row) c in
      try favorites_text <- text_of (col_FavoritePoint row);
      try favorites <- int E favorites_text;
      let c := Cache.set_favorites favorites c in
      let c := Cache.set_state (negb (disabled row)) c in
      Return (Cache.set_pm_only (td_pm_upsell row) c)
  | _ => Raise IndexError
  end.

(** The attributes a PM-only row lacks: the statements after the
    [if c.pm_only] block. *)
Definition parse_details (row : Row) (c : Cache.t) : Result Cache.t :=
  try size_text <- text_of (col_ContainerSize row);
  try size <- Size_from_string E size_text;
  let c := Cache.set_size size c in
  try difficulty_text <- text_of (col_Difficulty row);
  try difficulty <- float E difficulty_text;
  let c := Cache.set_difficulty difficulty c in
  try terrain_text <- text_of (col_Terrain row);
  try terrain <- float E terrain_text;
  let c := Cache.set_terrain terrain c in
  try hidden_text <- text_of (col_PlaceDate row);
  try hidden <- parse_date E hidden_text;
  let c := Cache.set_hidden hidden c in
  try owner <- text_of (span_owner row);
  Return (Cache.set_author (slice_from 3 owner) c).

(** One row, from "parse raw data" to its [yield]: the cache it yields, or
    the exception it raises. *)
Definition parse_row (row : Row) : Result Cache.t :=
  try c <- parse_common row;
  if Cache.pm_only c is Some true then Return c
  else parse_details row c.

(** The [for] loop over one page: the caches it yields, and either the
    values of [start_index] and [limit] after the last row or the exception
    that ended it. *)
Fixpoint for_rows (rows : list (nat * Row)) (start_index : nat) (limit : Limit)
    : list Cache.t * Result (nat * Limit) :=
  match rows with
  | [] => ([], Return (start_index, limit))
  | (i, row) :: rest =>
      let start_index := i in
      let limit := decrement limit in
      if negative limit then ([], Raise StopIteration)
      else
        match parse_row row with
        | Raise e => ([], Raise e)
        | Return c =>
            let '(cs, r) := for_rows rest start_index limit in
            (c :: cs, r)
        end
  end.

(** The JSON value of a [_request(..., expect="json")]. *)
Definition json_of (l : Loaded) : Result PyVal :=
  match l with LJson v => Return v | _ => Raise TypeError end.

(** [v.strip()]: only a str has it. *)
Definition str_strip (v : PyVal) : Result string :=
  match v with VStr s => Return (strip s) | _ => Raise AttributeError end.

Definition _search_get_page (point : Point) (start_index : nat) : M (option Tag) :=
  if (start_index =? 0)%nat then
    do l <- _request E (_urls "search") "soup" "GET" true
              {| params := Some {[ "origin" := VStr (format point) ]};
                 data := None |};
    do res <- lift (soup_of l);
    ret (tag_geocaches res)
  else
    do l <- _request E (_urls "search_more") "json" "GET" true
              {| params := Some (<[ "inputOrigin" := VStr (format point) ]>
                                (<[ "startIndex" := VInt (Z.of_nat start_index) ]>
                                 {[ "originTreatment" := VInt 0 ]}));
                 data := None |};
    do res <- lift (json_of l);
    do html <- lift (try v <- getitem res "HtmlString"; str_strip v);
    do page <- lift (BeautifulSoup E html);
    ret (Some page).

(** [not page]. *)
Definition not_page (page : option Tag) : bool :=
  match page with Some t => negb (tag_bool t) | None => true end.

Definition find_all_tr (page : option Tag) : list Row :=
  match page with Some t => tag_trs t | None => [] end.

(** The body of [search], for at most [fuel] turns of its [while True]. *)
Fixpoint search_body (fuel : nat) (point : Point) (start_index : nat) (limit : Limit)
    (st : State) : list Cache.t * Body * State :=
  match fuel with
  | O => ([], BodyRunning, st)
  | S fuel =>
      match _search_get_page point start_index st with
      | (Raise e, st) => ([], BodyRaise e, st)
      | (Return page, st) =>
          if not_page page then ([], BodyRaise StopIteration, st)
          else
            match for_rows (enumerate (find_all_tr page) start_index)
                    start_index limit with
            | (cs, Raise e) => (cs, BodyRaise e, st)
            | (cs, Return (start_index, limit)) =>
                let '(cs', b, st) :=
                  search_body fuel point (start_index + 1) limit st in
                (cs ++ cs', b, st)
            end
      end
  end.

(** [search(point, limit)], driven to its end by a consumer that does
    nothing else with the object. *)
Definition search (generator_stop : bool) (fuel : nat) (point : Point)
    (limit : Limit) (st : State) : list Cache.t * Ending * State :=
  let '(cs, b, st) := search_body fuel point 0 limit st in
  (cs, generator_end generator_stop b, st).

End Search.

(** ** [search_quick] *)

Section SearchQuick.

(** The area and tile classes ([pycaching.geo]) by the calls made on them:
    [area.to_tiles(gc, zoom)], [tile.blocks], [Cache.from_block(block)] and
    [location in area].  The first two may use the object's session. *)
Context {Area Tile Block : Type}.
Variable to_tiles : Area -> option Z -> M (list Tile).
Variable blocks : Tile -> M (list Block).
Variable from_block : Block -> Result Cache.t.
Variable in_area : option Point -> Area -> bool.

(** The inner [for] loop. *)
Fixpoint for_blocks (area : Area) (strict : bool) (bs : list Block)
    : list Cache.t * Result unit :=
  match bs with
  | [] => ([], Return tt)
  | block :: rest =>
      match from_block block with
      | Raise e => ([], Raise e)
      | Return cache =>
          if strict && negb (in_area (Cache.location cache) area) then
            for_blocks area strict rest
          else
            let '(cs, r) := for_blocks area strict rest in
            (cache :: cs, r)
      end
  end.

(** The outer [for] loop. *)
Fixpoint for_tiles (area : Area) (strict : bool) (tiles : list Tile) (st : State)
    : list Cache.t * Body * State :=
  match tiles with
  | [] => ([], BodyReturn, st)
  | tile :: rest =>
      match blocks tile st with
      | (Raise e, st) => ([], BodyRaise e, st)
      | (Return bs, st) =>
          match for_blocks area strict bs with
          | (cs, Raise e) => (cs, BodyRaise e, st)
          | (cs, Return _) =>
              let '(cs', b, st) := for_tiles area strict rest st in
              (cs ++ cs', b, st)
          end
      end
  end.

Definition search_quick (generator_stop : bool) (area : Area) (strict : bool)
    (zoom : option Z) (st : State) : list Cache.t * Ending * State :=
  match to_tiles area zoom st with
  | (Raise e, st) => ([], generator_end generator_stop (BodyRaise e), st)
  | (Return tiles, st) =>
      let '(cs, b, st) := for_tiles area strict tiles st in
      (cs, generator_end generator_stop b, st)
  end.

End SearchQuick.

(** ** A small site to run the module against *)

Module Demo.

(** [int] on a str of decimal digits. *)
Fixpoint digits (s : string) (acc : Z) : Result Z :=
  match s with
  | EmptyString => Return acc
  | String c s' =>
      let n := nat_of_ascii c in
      if (48 <=? n)%nat && (n <=? 57)%nat
      then digits s' (10 * acc + Z.of_nat (n - 48))%Z
      else Raise ValueError
  end.

Definition decimal (s : string) : Result Z :=
  match s with EmptyString => Raise ValueError | _ => digits s 0%Z end.

(** The login form: user name, password, "remember me", and two fields
    that carry their own value. *)
Definition form : list Input :=
  [ mkInput (Some "text") (Some "user") None;
    mkInput (Some "password") (Some "pass") None;
    mkInput (Some "checkbox") (Some "remember") None;
    mkInput (Some "hidden") (Some "token") (Some "t0");
    mkInput (Some "submit") (Some "go") (Some "Sign in") ].

Definition login_page (who : option string) : Tag :=
  mkTag true (match who with Some n => Some (Some n) | None => None end)
        form None [].

(** The [n]-th result row: a full row, or a PM-only row. *)
Definition waypoint (n : nat) : string :=
  "GC" +:+ String (ascii_of_nat (65 + n)) EmptyString.

Definition row (n : nat) : Row :=
  {| span_cache_details := Some ("Traditional Cache | " +:+ waypoint n);
     span_cache_name := Some "A cache";
     img_found_it := false;
     col_FavoritePoint := Some "7";
     row_class := None;
     td_pm_upsell := false;
     col_ContainerSize := Some "small";
     col_Difficulty := Some "1.5";
     col_Terrain := Some "2.0";
     col_PlaceDate := Some "10/01/2015";
     span_owner := Some "by someone" |}.

Definition pm_row (n : nat) : Row :=
  {| span_cache_details := Some ("Traditional Cache | " +:+ waypoint n);
     span_cache_name := Some "A premium cache";
     img_found_it := true;
     col_FavoritePoint := Some "12";
     row_class := Some ["disabled"];
     td_pm_upsell := true;
     col_ContainerSize := None;
     col_Difficulty := None;
     col_Terrain := None;
     col_PlaceDate := None;
     span_owner := None |}.

Definition rows (k : nat) : list Row := map row (seq 0 k).

(** The cache that [row n] yields. *)
Definition cache (n : nat) : Cache.t :=
  Cache.mk (Some (waypoint n)) (Some "Traditional Cache") (Some "A cache")
    (Some false) (Some 7%Z) (Some true) (Some false) (Some "small")
    (Some "1.5") (Some "2.0") (Some (mkDate 2015 10 1)) (Some "someone") None.

(** A results table, and the document around it. *)
Definition table (trs : list Row) : Tag := mkTag true None [] None trs.
Definition results (trs : list Row) : Tag :=
  mkTag true None [] (Some (table trs)) trs.

(** A fragment with nothing in it, which tests false. *)
Definition nothing : Tag := mkTag false None [] None [].

(** The parser, on the markup this site sends. *)
Definition docs (markup : string) : Result Tag :=
  if String.eqb markup "" then Return nothing
  else if String.eqb markup "login" then Return (login_page None)
  else if prefixb "login:" markup then Return (login_page (Some (slice_from 6 markup)))
  else if String.eqb markup "results" then Return (results (rows 20))
  else if String.eqb markup "no rows" then Return (results [])
  else Raise (OtherException "ParserRejectedMarkup").

Definition html (markup : string) : Response :=
  {| raise_for_status := None; text := markup; json := Raise ValueError |}.

Definition base : string := "https://www.geocaching.com/".

(** The server.  A session is logged in when its jar has a [user] cookie;
    the password of every user is "secret"; the search endpoint sends
    [found], and the continuation endpoint an empty [HtmlString]. *)
Definition serve (found : string) (session : Session) (method url : string)
    (kwargs : Kwargs) : Result Response * Session :=
  if String.eqb url (base +:+ "login/default.aspx") then
    if String.eqb method "POST" then
      match data kwargs with
      | Some post =>
          match post !! "user", post !! "pass" with
          | Some (VStr n), Some (VStr "secret") =>
              (Return (html ("login:" +:+ n)),
               {| cookies := <[ "user" := n ]> (cookies session) |})
          | _, _ => (Return (html "login"), session)
          end
      | None => (Return (html "login"), session)
      end
    else
      match cookies session !! "user" with
      | Some n => (Return (html ("login:" +:+ n)), session)
      | None => (Return (html "login"), session)
      end
  else if String.eqb url (base +:+ "play/search") then
    (Return (html found), session)
  else if String.eqb url (base +:+ "play/search/more-results") then
    (Return {| raise_for_status := None;
               text := "{}";
               json := Return (VDict [("HtmlString", VStr "")]) |},
     session)
  else (Raise (RequestException "ConnectionError"), session).

Definition site (found : string) : Externals :=
  {| urljoin := fun b url => b +:+ "/" +:+ url;
     session_request := fun _ => serve found;
     BeautifulSoup := docs;
     isfile := fun _ => false;
     home_join := fun f => "/home/user/" +:+ f;
     json_load := fun _ => Raise IOError;
     int := decimal;
     float := fun s => Return s;
     Type_from_string := fun s => Return s;
     Size_from_string := fun s => Return s;
     parse_date := fun _ => Return (mkDate 2015 10 1) |}.

(** A site whose every answer is a body that is no JSON. *)
Definition garbled : Externals :=
  {| urljoin := fun b url => b +:+ "/" +:+ url;
     session_request := fun _ session _ _ _ => (Return (html "<html>"), session);
     BeautifulSoup := docs;
     isfile := fun _ => false;
     home_join := fun f => "/home/user/" +:+ f;
     json_load := fun _ => Raise IOError;
     int := decimal;
     float := fun s => Return s;
     Type_from_string := fun s => Return s;
     Size_from_string := fun s => Return s;
     parse_date := fun _ => Return (mkDate 2015 10 1) |}.

(** An object logged in as [who]. *)
Definition logged_in (who : string) : State :=
  {| _logged_in := true;
     _session := {| cookies := {[ "user" := who ]} |};
     trace := [] |}.

(** An object that never logged in, on a session the site knows as [who]. *)
Definition stale (who : string) : State :=
  {| _logged_in := false;
     _session := {| cookies := {[ "user" := who ]} |};
     trace := [] |}.

Definition here : Point := {| format := "N 49 45.000 E 13 22.000" |}.

(** A map for the quick search.  An area is the list of the places in it;
    a block is a waypoint with its place; a tile is the list of its
    blocks, at hand without a request. *)
Definition in_area (location : option Point) (area : list string) : bool :=
  match location with
  | Some p => existsb (String.eqb (format p)) area
  | None => false
  end.

Definition from_block (block : string * string) : Result Cache.t :=
  Return (Cache.mk (Some block.1) None None None None None None None None None
            None None (Some {| format := block.2 |})).

Definition blocks (tile : list (string * string)) : M (list (string * string)) :=
  ret tile.

Definition tiles : list (list (string * string)) :=
  [ [("GCA", "north"); ("GCB", "east")]; [("GCC", "north")] ].

Definition to_tiles (area : list string) (zoom : option Z)
    : M (list (list (string * string))) :=
  ret tiles.

End Demo.

(** * The vocabulary of the properties *)

(** Where an exception can come from inside the [try] of [_request]: the
    HTTP call, the status check, or the decoding asked for by [expect]. *)
Inductive raised_in_try (E : Externals) (expect : string)
    : Result Response -> exn -> Prop :=
| transport_failure e :
    raised_in_try E expect (Raise e) e
| status_failure res e :
    raise_for_status res = Some e ->
    raised_in_try E expect (Return res) e
| markup_failure res e :
    raise_for_status res = None ->
    expect = "soup" ->
    BeautifulSoup E (text res) = Raise e ->
    raised_in_try E expect (Return res) e
| json_failure res e :
    raise_for_status res = None ->
    expect = "json" ->
    json res = Raise e ->
    raised_in_try E expect (Return res) e.

(** The login check of [_request] lets the call through. *)
Definition passes_login_check (login_check : bool) (st : State) : Prop :=
  login_check && negb (_logged_in st) = false.

(** A successful load of a document: the call, the status check and the
    markup parser all succeed. *)
Definition loads (E : Externals) (st : State) (method url : string)
    (kwargs : Kwargs) (page : Tag) (session : Session) : Prop :=
  exists res,
    session_request E (trace st) (_session st) method (resolve E url) kwargs
      = (Return res, session)
    /\ raise_for_status res = None
    /\ BeautifulSoup E (text res) = Return page.

(** Every action of the object only adds to its history. *)
Definition extends {A} (m : M A) : Prop :=
  forall st, exists t, trace (snd (m st)) = trace st ++ t.

(** The object when [login] assembles the form: after the GET of the login
    page, and after the logout that a page showing an identity brings. *)
Definition before_post (E : Externals) (st : State) (session : Session)
    (page : Tag) : State :=
  let st1 := sent st session "GET" (resolve E (_urls "login_page")) no_kwargs in
  if opt_truthy (marker_text page) then
    {| _logged_in := false;
       _session := new_Session;
       trace := trace st1 ++ [EvLogout] |}
  else st1.

(** A row with other detail columns: size, difficulty, terrain, hidden
    date and owner. *)
Definition with_details (row : Row) (size difficulty terrain hidden owner : option string)
    : Row :=
  {| span_cache_details := span_cache_details row;
     span_cache_name := span_cache_name row;
     img_found_it := img_found_it row;
     col_FavoritePoint := col_FavoritePoint row;
     row_class := row_class row;
     td_pm_upsell := td_pm_upsell row;
     col_ContainerSize := size;
     col_Difficulty := difficulty;
     col_Terrain := terrain;
     col_PlaceDate := hidden;
     span_owner := owner |}.

(** Every row of the list parses: the caches, in order. *)
Fixpoint parse_rows (E : Externals) (rows : list Row) : Result (list Cache.t) :=
  match rows with
  | [] => Return []
  | row :: rest =>
      try c <- parse_row E row;
      try cs <- parse_rows E rest;
      Return (c :: cs)
  end.

(** The limit lets [k] more caches through. *)
Definition allows (limit : Limit) (k : nat) : Prop :=
  match limit with inf => True | count n => (Z.of_nat k <= n)%Z end.

(** The limit after [k] caches went through. *)
Definition after (limit : Limit) (k : nat) : Limit :=
  match limit with inf => inf | count n => count (n - Z.of_nat k) end.






Section SearchQuickVocabulary.

Context {Area Tile Block : Type}.
Variable blocks : Tile -> M (list Block).
Variable from_block : Block -> Result Cache.t.
Variable in_area : option Point -> Area -> bool.

(** The tiles hand over their blocks, one tile after the other. *)
Inductive exposes : State -> list Tile -> list (list Block) -> State -> Prop :=
| exposes_nil st :
    exposes st [] [] st
| exposes_cons st tile tiles bs bss st1 st2 :
    blocks tile st = (Return bs, st1) ->
    exposes st1 tiles bss st2 ->
    exposes st (tile :: tiles) (bs :: bss) st2.

(** A cache is made from each block. *)
Fixpoint constructs (bs : list Block) : Result (list Cache.t) :=
  match bs with
  | [] => Return []
  | block :: rest =>
      try cache <- from_block block;
      try caches <- constructs rest;
      Return (cache :: caches)
  end.

(** [cache.location in area]. *)
Definition inside (area : Area) (cache : Cache.t) : bool :=
  in_area (Cache.location cache) area.

End SearchQuickVocabulary.

(** * More vocabulary, and more of the demo site *)

(** The same collaborators on another file system. *)
Definition on_files (E : Externals) (isfile' : string -> bool)
    (home_join' : string -> string) (json_load' : string -> Result PyVal)
    : Externals :=
  {| urljoin := urljoin E;
     session_request := session_request E;
     BeautifulSoup := BeautifulSoup E;
     isfile := isfile';
     home_join := home_join';
     json_load := json_load';
     int := int E;
     float := float E;
     Type_from_string := Type_from_string E;
     Size_from_string := Size_from_string E;
     parse_date := parse_date E |}.

(** The caller gave no user name or no password. *)
Definition missing (username password : PyVal) : Prop :=
  negb (truthy username) || negb (truthy password) = true.

(** The credentials file [_load_credentials] settles on, when there is
    one: the one in the current directory, else the one at home. *)
Definition found_file (E : Externals) (file : string) : Prop :=
  (isfile E _credentials_file = true /\ file = _credentials_file)
  \/ (isfile E _credentials_file = false
      /\ isfile E (home_join E _credentials_file) = true
      /\ file = home_join E _credentials_file).

(** An action that, when it returns, leaves the object logged in. *)
Definition lands_logged_in (m : M unit) : Prop :=
  forall st, (m st).1 = Return tt -> _logged_in (m st).2 = true.

(** The inputs [login] pairs with the user name, the password and 1, and
    the inputs that carry their own value. *)
Definition login_elements (page : Tag) : list Input :=
  find_all_input page ["text"; "password"; "checkbox"].
Definition other_elements (page : Tag) : list Input :=
  find_all_input page ["hidden"; "submit"].

(** A request of [search]: a GET to the search page or to the
    continuation endpoint. *)
Definition search_request (E : Externals) (ev : Event) : Prop :=
  exists session url kwargs,
    ev = EvRequest session "GET" url kwargs
    /\ (url = resolve E (_urls "search") \/ url = resolve E (_urls "search_more")).

(** The query of the continuation request for [start_index]. *)
Definition more_params (point : Point) (start_index : nat) : Kwargs :=
  {| params := Some (<[ "inputOrigin" := VStr (format point) ]>
                     (<[ "startIndex" := VInt (Z.of_nat start_index) ]>
                      {[ "originTreatment" := VInt 0 ]}));
     data := None |}.

Module More.

(** A file system with one credentials file, in the current directory. *)
Definition with_file (contents : Result PyVal) : Externals :=
  on_files (Demo.site "results")
    (fun f => String.eqb f ".gc_credentials")
    (fun f => "/home/user/" +:+ f)
    (fun _ => contents).

(** A row whose favorites are no number. *)
Definition bad_row : Row :=
  {| span_cache_details := Some "Traditional Cache | GCX";
     span_cache_name := Some "A cache";
     img_found_it := false;
     col_FavoritePoint := Some "many";
     row_class := None;
     td_pm_upsell := false;
     col_ContainerSize := Some "small";
     col_Difficulty := Some "1.5";
     col_Terrain := Some "2.0";
     col_PlaceDate := Some "10/01/2015";
     span_owner := Some "by someone" |}.

(** The demo site, whose search page is now two good rows, the bad row
    and one more good row. *)
Definition broken : Externals :=
  {| urljoin := urljoin (Demo.site "broken");
     session_request := session_request (Demo.site "broken");
     BeautifulSoup := fun markup =>
       if String.eqb markup "broken"
       then Return (Demo.results (Demo.rows 2 ++ bad_row :: Demo.rows 1))
       else Demo.docs markup;
     isfile := isfile (Demo.site "broken");
     home_join := home_join (Demo.site "broken");
     json_load := json_load (Demo.site "broken");
     int := int (Demo.site "broken");
     float := float (Demo.site "broken");
     Type_from_string := Type_from_string (Demo.site "broken");
     Size_from_string := Size_from_string (Demo.site "broken");
     parse_date := parse_date (Demo.site "broken") |}.

(** The demo site, whose continuation endpoint now answers with a JSON
    object that has no "HtmlString". *)
Definition bare : Externals :=
  {| urljoin := urljoin (Demo.site "results");
     session_request := fun _ session method url kwargs =>
       if String.eqb url (Demo.base +:+ "play/search/more-results")
       then (Return {| raise_for_status := None;
                       text := "{}";
                       json := Return (VDict []) |},
             session)
       else Demo.serve "results" session method url kwargs;
     BeautifulSoup := BeautifulSoup (Demo.site "results");
     isfile := isfile (Demo.site "results");
     home_join := home_join (Demo.site "results");
     json_load := json_load (Demo.site "results");
     int := int (Demo.site "results");
     float := float (Demo.site "results");
     Type_from_string := Type_from_string (Demo.site "results");
     Size_from_string := Size_from_string (Demo.site "results");
     parse_date := parse_date (Demo.site "results") |}.

(** A map with a block that no cache can be made of. *)
Definition from_block (block : string * string) : Result Cache.t :=
  if String.eqb block.1 "" then Raise ValueError else Demo.from_block block.

Definition tiles : list (list (string * string)) :=
  [ [("GCA", "north"); ("GCB", "east")];
    [("GCC", "north"); ("", "north"); ("GCD", "north")];
    [("GCE", "north")] ].

Definition to_tiles (area : list string) (zoom : option Z)
    : M (list (list (string * string))) :=
  ret tiles.

(** The demo site with the network down. *)
Definition offline : Externals :=
  {| urljoin := urljoin (Demo.site "results");
     session_request := fun _ session _ _ _ =>
       (Raise (RequestException "ConnectionError"), session);
     BeautifulSoup := BeautifulSoup (Demo.site "results");
     isfile := isfile (Demo.site "results");
     home_join := home_join (Demo.site "results");
     json_load := json_load (Demo.site "results");
     int := int (Demo.site "results");
     float := float (Demo.site "results");
     Type_from_string := Type_from_string (Demo.site "results");
     Size_from_string := Size_from_string (Demo.site "results");
     parse_date := parse_date (Demo.site "results") |}.

End More.

(** * Properties *)

(** ** Requests *)

(** A call that is let through is one HTTP call, then the [try] body under
    the [except] clause. *)
Lemma _request_through E url expect method login_check kwargs st r session :
  passes_login_check login_check st ->
  session_request E (trace st) (_session st) method (resolve E url) kwargs
    = (r, session) ->
  _request E url expect method login_check kwargs st
    = (except_RequestException (resolve E url) (decode E expect r),
       sent st session method (resolve E url) kwargs).
Proof.
  unfold passes_login_check, _request. intros -> ->. reflexivity.
Qed.

Lemma decode_raised E expect r e :
  raised_in_try E expect r e -> decode E expect r = Raise e.
Proof.
  unfold decode.
  destruct 1 as [e | res e Hs | res e Hs -> Hd | res e Hs -> Hd]; simpl.
  - reflexivity.
  - rewrite Hs. reflexivity.
  - rewrite Hs, Hd. reflexivity.
  - rewrite Hs, Hd. reflexivity.
Qed.

Lemma _request_loads E st method url login_check kwargs page session :
  passes_login_check login_check st ->
  loads E st method url kwargs page session ->
  _request E url "soup" method login_check kwargs st
    = (Return (LSoup page), sent st session method (resolve E url) kwargs).
Proof.
  intros Hg (res & Hr & Hs & Hp).
  rewrite (_request_through _ _ _ _ _ _ _ _ _ Hg Hr).
  unfold decode. simpl. rewrite Hs, Hp. reflexivity.
Qed.

(** C3.  With the login check on and the object logged out, [_request]
    raises NotLoggedInException and leaves the object as it was: its
    history gains no HTTP call.  [search], started in that state, yields
    nothing and fails with the same exception, again without a call. *)
Theorem logged_out_raises_before_any_request (E : Externals) (st : State)
    (Hout : _logged_in st = false) :
  (forall url expect method kwargs,
      _request E url expect method true kwargs st
        = (Raise (NotLoggedInException "Login is needed."), st))
  /\ (forall generator_stop fuel point limit,
         search E generator_stop (S fuel) point limit st
           = ([], Failed (NotLoggedInException "Login is needed."), st)).
Proof.
  assert (Hreq : forall url expect method kwargs,
             _request E url expect method true kwargs st
               = (Raise (NotLoggedInException "Login is needed."), st)).
  { intros. unfold _request. rewrite Hout. reflexivity. }
  split; [exact Hreq |].
  intros gs fuel point limit.
  unfold search. simpl. unfold _search_get_page, bind. simpl.
  rewrite Hreq. destruct gs; reflexivity.
Qed.

Lemma logged_out_raises_before_any_request_witness :
  _logged_in __init__ = false
  /\ _request (Demo.site "results") "play/search" "soup" "GET" true no_kwargs __init__
       = (Raise (NotLoggedInException "Login is needed."), __init__)
  /\ search (Demo.site "results") false 1 Demo.here inf __init__
       = ([], Failed (NotLoggedInException "Login is needed."), __init__).
Proof.
  split; [reflexivity |].
  split; apply (logged_out_raises_before_any_request _ __init__ eq_refl).
Defined.

(** C10.  When the call goes through and the status check passes, an
    [expect] that is none of "soup", "json" and "raw" makes [_request]
    return [None]: no exception, no decoded value. *)
Theorem request_unknown_expect_returns_None (E : Externals)
    (url expect method : string) (login_check : bool) (kwargs : Kwargs)
    (st : State) (res : Response) (session : Session) :
  passes_login_check login_check st ->
  session_request E (trace st) (_session st) method (resolve E url) kwargs
    = (Return res, session) ->
  raise_for_status res = None ->
  expect <> "soup" -> expect <> "json" -> expect <> "raw" ->
  _request E url expect method login_check kwargs st
    = (Return LNone, sent st session method (resolve E url) kwargs).
Proof.
  intros Hg Hr Hs H1 H2 H3.
  rewrite (_request_through _ _ _ _ _ _ _ _ _ Hg Hr).
  unfold decode. simpl. rewrite Hs.
  apply String.eqb_neq in H1, H2, H3. rewrite H1, H2, H3. reflexivity.
Qed.

Lemma request_unknown_expect_returns_None_witness :
  fst (_request (Demo.site "results") "play/search" "xml" "GET" true no_kwargs
         (Demo.logged_in "alice"))
    = Return LNone.
Proof.
  rewrite (request_unknown_expect_returns_None (Demo.site "results")
             "play/search" "xml" "GET" true no_kwargs (Demo.logged_in "alice")
             (Demo.html "results") (_session (Demo.logged_in "alice")));
    [reflexivity | reflexivity | reflexivity | reflexivity
     | discriminate | discriminate | discriminate].
Defined.

(** C4 (as amended).  An exception raised inside the [try] of [_request],
    by the HTTP call, by the status check or by the decoding, reaches the
    caller as [Error] with the resolved URL in its message when it is a
    [RequestException], and unchanged when it is of any other class. *)
Theorem request_failure_surfaces (E : Externals) (url expect method : string)
    (login_check : bool) (kwargs : Kwargs) (st : State)
    (r : Result Response) (session : Session) (e : exn) :
  passes_login_check login_check st ->
  session_request E (trace st) (_session st) method (resolve E url) kwargs
    = (r, session) ->
  raised_in_try E expect r e ->
  _request E url expect method login_check kwargs st
    = (Raise (if is_RequestException e
              then Error ("Cannot load page: " +:+ resolve E url)
              else e),
       sent st session method (resolve E url) kwargs).
Proof.
  intros Hg Hr He.
  rewrite (_request_through _ _ _ _ _ _ _ _ _ Hg Hr).
  rewrite (decode_raised _ _ _ _ He).
  unfold except_RequestException.
  destruct (is_RequestException e); reflexivity.
Qed.

Lemma request_failure_surfaces_witness :
  fst (_request (Demo.site "results") "nowhere" "soup" "GET" false no_kwargs __init__)
    = Raise (Error "Cannot load page: https://www.geocaching.com/nowhere").
Proof.
  rewrite (request_failure_surfaces (Demo.site "results") "nowhere" "soup" "GET"
             false no_kwargs __init__
             (Raise (RequestException "ConnectionError")) new_Session
             (RequestException "ConnectionError"));
    [reflexivity | reflexivity | reflexivity | constructor].
Defined.

(** C4 as stated fails: on a site that answers with a body that is no
    JSON, the decoding failure of [expect="json"] reaches the caller as
    the ValueError it is, not as [Error]. *)
Lemma request_decoding_failure_escapes :
  raised_in_try Demo.garbled "json" (Return (Demo.html "<html>")) ValueError
  /\ fst (_request Demo.garbled "play/search/more-results" "json" "GET" false
            no_kwargs __init__)
       = Raise ValueError
  /\ forall msg,
       fst (_request Demo.garbled "play/search/more-results" "json" "GET" false
              no_kwargs __init__)
         <> Raise (Error msg).
Proof.
  split; [| split].
  - apply json_failure; reflexivity.
  - reflexivity.
  - intros msg. vm_compute. discriminate.
Qed.

(** ** The login state machine *)

Lemma extends_ret {A} (a : A) : extends (ret a).
Proof. intros st. exists []. simpl. by rewrite app_nil_r. Qed.

Lemma extends_raise {A} (e : exn) : extends (@raise A e).
Proof. intros st. exists []. simpl. by rewrite app_nil_r. Qed.

Lemma extends_lift {A} (r : Result A) : extends (lift r).
Proof. intros st. exists []. simpl. by rewrite app_nil_r. Qed.

Lemma extends_bind {A B} (m : M A) (k : A -> M B) :
  extends m -> (forall a, extends (k a)) -> extends (bind m k).
Proof.
  intros Hm Hk st. unfold bind.
  destruct (Hm st) as [t Ht]. destruct (m st) as [[a | e] st1]; simpl in *.
  - destruct (Hk a st1) as [t' Ht']. exists (t ++ t').
    rewrite Ht', Ht. by rewrite app_assoc.
  - exists t. exact Ht.
Qed.

Lemma extends__request E url expect method login_check kwargs :
  extends (_request E url expect method login_check kwargs).
Proof.
  intros st. unfold _request.
  destruct (login_check && negb (_logged_in st)).
  - exists []. simpl. by rewrite app_nil_r.
  - destruct (session_request _ _ _ _ _ _) as [r s]. simpl. eauto.
Qed.

Lemma extends_logout : extends logout.
Proof. intros st. simpl. eauto. Qed.

Lemma extends_set_logged_in b : extends (set_logged_in b).
Proof. intros st. exists []. simpl. by rewrite app_nil_r. Qed.

Lemma extends_get_logged_user E page : extends (get_logged_user E page).
Proof.
  unfold get_logged_user. apply extends_bind; [| intros; apply extends_ret].
  destruct page as [page |]; [destruct (tag_bool page) |];
    try apply extends_ret;
    (apply extends_bind; [apply extends__request | intros; apply extends_lift]).
Qed.

(** On a document that tests true, [get_logged_user] is a pure read. *)
Lemma get_logged_user_pure E page st :
  tag_bool page = true ->
  get_logged_user E (Some page) st = (Return (marker_text page), st).
Proof. intros H. unfold get_logged_user, bind. rewrite H. reflexivity. Qed.

(** The first steps of [login], up to the check for a previous login. *)
Lemma login_start E username password st u p page session :
  credentials E username password = Return (u, p) ->
  loads E st "GET" (_urls "login_page") no_kwargs page session ->
  tag_bool page = true ->
  login E username password st
    = (if opt_truthy (marker_text page) then
         if logged_eq (marker_text page) u then set_logged_in true
         else do _ <- logout; submit E page u p
       else submit E page u p)
        (sent st session "GET" (resolve E (_urls "login_page")) no_kwargs).
Proof.
  intros Hc Hl Hb. unfold login, bind at 1, lift at 1. rewrite Hc. simpl.
  unfold bind at 1.
  rewrite (_request_loads E st "GET" _ false no_kwargs page session eq_refl Hl).
  unfold bind at 1, lift at 1. simpl.
  unfold bind at 1. rewrite (get_logged_user_pure _ _ _ Hb). reflexivity.
Qed.

Lemma nonempty_truthy (name : string) : name <> "" -> str_nonempty name = true.
Proof. destruct name; [congruence | reflexivity]. Qed.

(** C5.  When the login page that [login] fetches is a document showing a
    logged-in identity (a non-empty name) equal to the requested user
    name, [login] returns normally with the object logged in; the GET of
    the login page is its only HTTP call (no POST, no logout), and the
    session is the one that GET left. *)
Theorem login_same_user_is_idempotent (E : Externals) (username password : PyVal)
    (st : State) (u p : PyVal) (page : Tag) (session : Session) (name : string) :
  credentials E username password = Return (u, p) ->
  loads E st "GET" (_urls "login_page") no_kwargs page session ->
  tag_bool page = true ->
  marker_text page = Some name ->
  name <> "" ->
  u = VStr name ->
  login E username password st
    = (Return tt,
       {| _logged_in := true;
          _session := session;
          trace := trace st ++
                   [EvRequest (_session st) "GET" (resolve E (_urls "login_page"))
                      no_kwargs] |}).
Proof.
  intros Hc Hl Hb Hm Hn ->.
  rewrite (login_start _ _ _ _ _ _ _ _ Hc Hl Hb), Hm. simpl.
  rewrite (nonempty_truthy _ Hn), String.eqb_refl. reflexivity.
Qed.

Lemma login_same_user_is_idempotent_witness :
  login (Demo.site "results") (VStr "alice") (VStr "secret") (Demo.stale "alice")
    = (Return tt,
       {| _logged_in := true;
          _session := _session (Demo.stale "alice");
          trace := [EvRequest (_session (Demo.stale "alice")) "GET"
                      "https://www.geocaching.com/login/default.aspx" no_kwargs] |}).
Proof.
  apply (login_same_user_is_idempotent (Demo.site "results") (VStr "alice")
           (VStr "secret") (Demo.stale "alice") (VStr "alice") (VStr "secret")
           (Demo.login_page (Some "alice")) (_session (Demo.stale "alice"))
           "alice").
  - reflexivity.
  - exists (Demo.html "login:alice"). repeat split; reflexivity.
  - reflexivity.
  - reflexivity.
  - discriminate.
  - reflexivity.
Defined.

(** [submit] stops at once when the form cannot be assembled. *)
Lemma submit_no_form E page u p st e :
  assemble_post page u p = Raise e ->
  submit E page u p st = (Raise e, st).
Proof. intros H. unfold submit, bind, lift. rewrite H. reflexivity. Qed.

(** Otherwise its first action is the POST of the form, through the
    session the object has. *)
Lemma submit_posts E page u p st post :
  assemble_post page u p = Return post ->
  exists rest,
    trace (snd (submit E page u p st))
      = trace st ++
        EvRequest (_session st) "POST" (resolve E (_urls "login_page"))
          {| params := None; data := Some post |} :: rest.
Proof.
  intros H. unfold submit, bind at 1, lift at 1. rewrite H.
  unfold bind at 1.
  destruct (session_request E (trace st) (_session st) "POST"
              (resolve E (_urls "login_page"))
              {| params := None; data := Some post |}) as [r s'] eqn:Hr.
  rewrite (_request_through E _ "soup" "POST" false _ st r s' eq_refl Hr).
  destruct (except_RequestException _ _) as [l | e].
  - match goal with |- context [bind ?m ?k ?s] =>
      assert (Hx : extends (bind m k)) end.
    { apply extends_bind; [apply extends_lift | intros after].
      apply extends_bind; [apply extends_get_logged_user | intros logged].
      destruct (opt_truthy logged); [apply extends_set_logged_in |].
      apply extends_bind; [apply extends_logout | intros; apply extends_raise]. }
    destruct (Hx (sent st s' "POST" (resolve E (_urls "login_page"))
                {| params := None; data := Some post |})) as [t Ht].
    exists t. rewrite Ht. simpl. by rewrite <- app_assoc.
  - exists []. reflexivity.
Qed.

(** C6.  When the login page shows a logged-in identity (a non-empty name)
    that differs from the requested user name, the history of [login]
    continues with the GET of the login page, then one logout, and then
    either nothing (the form could not be assembled, and its exception is
    raised) or the POST of the form, sent through a fresh session. *)
Theorem login_other_user_logs_out_once (E : Externals) (username password : PyVal)
    (st : State) (u p : PyVal) (page : Tag) (session : Session) (name : string) :
  credentials E username password = Return (u, p) ->
  loads E st "GET" (_urls "login_page") no_kwargs page session ->
  tag_bool page = true ->
  marker_text page = Some name ->
  name <> "" ->
  str_eq name u = false ->
  exists rest,
    trace (snd (login E username password st))
      = trace st ++
        EvRequest (_session st) "GET" (resolve E (_urls "login_page")) no_kwargs
        :: EvLogout :: rest
    /\ match assemble_post page u p with
       | Raise e => rest = [] /\ fst (login E username password st) = Raise e
       | Return post =>
           exists rest',
             rest = EvRequest new_Session "POST" (resolve E (_urls "login_page"))
                      {| params := None; data := Some post |} :: rest'
       end.
Proof.
  intros Hc Hl Hb Hm Hn Hne.
  rewrite (login_start _ _ _ _ _ _ _ _ Hc Hl Hb), Hm. simpl.
  rewrite (nonempty_truthy _ Hn), Hne.
  unfold bind at 1. simpl.
  destruct (assemble_post page u p) as [post | e] eqn:Hp.
  - destruct (submit_posts E page u p
                {| _logged_in := false; _session := new_Session;
                   trace := (trace st ++
                             [EvRequest (_session st) "GET"
                                (resolve E (_urls "login_page")) no_kwargs])
                            ++ [EvLogout] |} post Hp) as [rest' Hrest].
    eexists. split; [| exists rest'; reflexivity].
    rewrite Hrest. simpl. by rewrite <- !app_assoc.
  - unfold bind. simpl. rewrite !(submit_no_form _ _ _ _ _ _ Hp).
    exists []. simpl. split; [| split; reflexivity]. by rewrite <- app_assoc.
Qed.

Lemma login_other_user_logs_out_once_witness :
  exists rest,
    trace (snd (login (Demo.site "results") (VStr "alice") (VStr "secret")
                  (Demo.stale "bob")))
      = trace (Demo.stale "bob") ++
        EvRequest (_session (Demo.stale "bob")) "GET"
          (resolve (Demo.site "results") (_urls "login_page")) no_kwargs
        :: EvLogout :: rest
    /\ match assemble_post (Demo.login_page (Some "bob")) (VStr "alice")
               (VStr "secret") with
       | Raise e =>
           rest = []
           /\ fst (login (Demo.site "results") (VStr "alice") (VStr "secret")
                     (Demo.stale "bob")) = Raise e
       | Return post =>
           exists rest',
             rest = EvRequest new_Session "POST"
                      (resolve (Demo.site "results") (_urls "login_page"))
                      {| params := None; data := Some post |} :: rest'
       end.
Proof.
  apply (login_other_user_logs_out_once (Demo.site "results") (VStr "alice")
           (VStr "secret") (Demo.stale "bob") (VStr "alice") (VStr "secret")
           (Demo.login_page (Some "bob")) (_session (Demo.stale "bob")) "bob").
  - reflexivity.
  - exists (Demo.html "login:bob"). repeat split; reflexivity.
  - reflexivity.
  - reflexivity.
  - discriminate.
  - reflexivity.
Defined.

(** C7.  When [login] goes on to post the form and the answer is a
    document, the identity on that document decides: with one, the object
    is logged in and keeps its session and [login] returns; with none,
    the object is logged out, its session is replaced by a new one, a
    logout is recorded after the POST, and [login] raises
    LoginFailedException. *)
Theorem login_checks_the_answer (E : Externals) (username password : PyVal)
    (st : State) (u p : PyVal) (page after : Tag) (session session' : Session)
    (post : gmap string PyVal) :
  credentials E username password = Return (u, p) ->
  loads E st "GET" (_urls "login_page") no_kwargs page session ->
  tag_bool page = true ->
  opt_truthy (marker_text page) && logged_eq (marker_text page) u = false ->
  assemble_post page u p = Return post ->
  loads E (before_post E st session page) "POST" (_urls "login_page")
    {| params := None; data := Some post |} after session' ->
  tag_bool after = true ->
  login E username password st
    = let st1 := before_post E st session page in
      let sent_post :=
        EvRequest (_session st1) "POST" (resolve E (_urls "login_page"))
          {| params := None; data := Some post |} in
      if opt_truthy (marker_text after) then
        (Return tt,
         {| _logged_in := true;
            _session := session';
            trace := trace st1 ++ [sent_post] |})
      else
        (Raise (LoginFailedException
                  "Cannot login to the site (probably wrong username or password)."),
         {| _logged_in := false;
            _session := new_Session;
            trace := trace st1 ++ [sent_post; EvLogout] |}).
Proof.
  intros Hc Hl Hb Hother Hp Hl' Hb'.
  rewrite (login_start _ _ _ _ _ _ _ _ Hc Hl Hb).
  assert (Hsubmit : forall st1,
             loads E st1 "POST" (_urls "login_page")
               {| params := None; data := Some post |} after session' ->
             submit E page u p st1
               = if opt_truthy (marker_text after) then
                   (Return tt,
                    {| _logged_in := true; _session := session';
                       trace := trace st1 ++
                                [EvRequest (_session st1) "POST"
                                   (resolve E (_urls "login_page"))
                                   {| params := None; data := Some post |}] |})
                 else
                   (Raise (LoginFailedException
                             "Cannot login to the site (probably wrong username or password)."),
                    {| _logged_in := false; _session := new_Session;
                       trace := trace st1 ++
                                [EvRequest (_session st1) "POST"
                                   (resolve E (_urls "login_page"))
                                   {| params := None; data := Some post |};
                                 EvLogout] |})).
  { intros st1 H1. unfold submit, bind at 1, lift at 1. rewrite Hp.
    unfold bind at 1.
    rewrite (_request_loads E st1 "POST" _ false _ after session' eq_refl H1).
    unfold bind at 1, lift at 1. simpl.
    unfold bind at 1. rewrite (get_logged_user_pure _ _ _ Hb').
    destruct (opt_truthy (marker_text after)); [reflexivity |].
    unfold bind, logout, raise. simpl. by rewrite <- app_assoc. }
  unfold before_post in *.
  destruct (opt_truthy (marker_text page)); simpl in Hother.
  - rewrite Hother. unfold bind at 1. simpl. apply Hsubmit. exact Hl'.
  - apply Hsubmit. exact Hl'.
Qed.

Lemma login_checks_the_answer_witness :
  login (Demo.site "results") (VStr "alice") (VStr "wrong") (Demo.stale "bob")
    = (Raise (LoginFailedException
                "Cannot login to the site (probably wrong username or password)."),
       {| _logged_in := false;
          _session := new_Session;
          trace :=
            [ EvRequest (_session (Demo.stale "bob")) "GET"
                "https://www.geocaching.com/login/default.aspx" no_kwargs;
              EvLogout;
              EvRequest new_Session "POST"
                "https://www.geocaching.com/login/default.aspx"
                {| params := None;
                   data := Some (<[ "go" := VStr "Sign in" ]>
                                 (<[ "token" := VStr "t0" ]>
                                  (<[ "remember" := VInt 1 ]>
                                   (<[ "pass" := VStr "wrong" ]>
                                    {[ "user" := VStr "alice" ]})))) |};
              EvLogout ] |}).
Proof.
  rewrite (login_checks_the_answer (Demo.site "results") (VStr "alice")
             (VStr "wrong") (Demo.stale "bob") (VStr "alice") (VStr "wrong")
             (Demo.login_page (Some "bob")) (Demo.login_page None)
             (_session (Demo.stale "bob")) new_Session
             (<[ "go" := VStr "Sign in" ]>
              (<[ "token" := VStr "t0" ]>
               (<[ "remember" := VInt 1 ]>
                (<[ "pass" := VStr "wrong" ]>
                 {[ "user" := VStr "alice" ]}))))).
  - reflexivity.
  - reflexivity.
  - exists (Demo.html "login:bob"). repeat split; reflexivity.
  - reflexivity.
  - reflexivity.
  - vm_compute. reflexivity.
  - exists (Demo.html "login"). repeat split; vm_compute; reflexivity.
  - reflexivity.
Defined.

(** ** The rows of a result page *)

(** Follow [parse_common] through each of its steps that can raise; what
    is left is the cache it returns. *)
Ltac parse_common_steps E row :=
  unfold parse_common, text_of;
  destruct (span_cache_details row) as [?details |]; simpl; [| discriminate];
  match goal with
  | |- context [split ?sep ?details] =>
      destruct (split sep details) as [| ?d0 [| ?d1 ?ds]]; try discriminate
  end;
  match goal with
  | |- context [Type_from_string E ?s] =>
      destruct (Type_from_string E s); simpl; [| discriminate]
  end;
  destruct (span_cache_name row); simpl; [| discriminate];
  destruct (col_FavoritePoint row) as [?f |]; simpl; [| discriminate];
  match goal with
  | |- context [int E ?f] => destruct (int E f); simpl; [| discriminate]
  end;
  intros [= <-].

Lemma parse_common_pm_only E row c :
  parse_common E row = Return c -> Cache.pm_only c = Some (td_pm_upsell row).
Proof. parse_common_steps E row. reflexivity. Qed.

(** The common part sets none of the five detail attributes. *)
Lemma parse_common_no_details E row c :
  parse_common E row = Return c ->
  Cache.size c = None /\ Cache.difficulty c = None
  /\ Cache.terrain c = None /\ Cache.hidden c = None
  /\ Cache.author c = None.
Proof. parse_common_steps E row. repeat split; reflexivity. Qed.

Lemma parse_common_with_details E row sz d t h a :
  parse_common E (with_details row sz d t h a) = parse_common E row.
Proof. reflexivity. Qed.

Lemma parse_row_pm_only E row :
  td_pm_upsell row = true -> parse_row E row = parse_common E row.
Proof.
  intros Hpm. unfold parse_row.
  destruct (parse_common E row) as [c | e] eqn:Hc; simpl; [| reflexivity].
  rewrite (parse_common_pm_only _ _ _ Hc), Hpm. reflexivity.
Qed.

(** C8.  For a row that carries the PM-only marker: when its common
    columns are there and parse, the row yields a cache with exactly
    waypoint, type, name, found, favorites, state and pm_only set, the
    last to true; what the row yields or raises is the same whatever its
    size, difficulty, terrain, hidden-date and owner columns hold, so
    they are not read; a yielded cache has none of these five attributes
    set; and the loop yields it and goes on with the next row. *)
Theorem pm_only_row_is_yielded_without_details (E : Externals) (row : Row)
    (Hpm : td_pm_upsell row = true) :
  (forall details d0 d1 ds type name favorites_text favorites,
      span_cache_details row = Some details ->
      split "|" details = d0 :: d1 :: ds ->
      Type_from_string E (strip d0) = Return type ->
      span_cache_name row = Some name ->
      col_FavoritePoint row = Some favorites_text ->
      int E favorites_text = Return favorites ->
      parse_row E row
        = Return {| Cache.wp := Some (strip d1);
                    Cache.type := Some type;
                    Cache.name := Some name;
                    Cache.found := Some (img_found_it row);
                    Cache.favorites := Some favorites;
                    Cache.state := Some (negb (disabled row));
                    Cache.pm_only := Some true;
                    Cache.size := None;
                    Cache.difficulty := None;
                    Cache.terrain := None;
                    Cache.hidden := None;
                    Cache.author := None;
                    Cache.location := None |})
  /\ (forall size difficulty terrain hidden owner,
         parse_row E (with_details row size difficulty terrain hidden owner)
           = parse_row E row)
  /\ (forall c,
         parse_row E row = Return c ->
         Cache.size c = None /\ Cache.difficulty c = None
         /\ Cache.terrain c = None /\ Cache.hidden c = None
         /\ Cache.author c = None)
  /\ (forall c i rest start_index limit,
         parse_row E row = Return c ->
         negative (decrement limit) = false ->
         for_rows E ((i, row) :: rest) start_index limit
           = (c :: (for_rows E rest i (decrement limit)).1,
              (for_rows E rest i (decrement limit)).2)).
Proof.
  split; [| split; [| split]].
  - intros details d0 d1 ds type name ftext fav Hd Hs Ht Hn Hf Hi.
    rewrite (parse_row_pm_only _ _ Hpm).
    unfold parse_common, text_of. rewrite Hd. simpl. rewrite Hs, Ht. simpl.
    rewrite Hn. simpl. rewrite Hf. simpl. rewrite Hi. simpl.
    rewrite Hpm. reflexivity.
  - intros. rewrite !parse_row_pm_only by exact Hpm.
    apply parse_common_with_details.
  - intros c. rewrite (parse_row_pm_only _ _ Hpm).
    apply parse_common_no_details.
  - intros c i rest s limit Hc Hl. simpl. rewrite Hl, Hc.
    destruct (for_rows E rest i (decrement limit)). reflexivity.
Qed.

Lemma pm_only_row_is_yielded_without_details_witness :
  parse_row (Demo.site "results") (Demo.pm_row 3)
    = Return {| Cache.wp := Some "GCD";
                Cache.type := Some "Traditional Cache";
                Cache.name := Some "A premium cache";
                Cache.found := Some true;
                Cache.favorites := Some 12%Z;
                Cache.state := Some false;
                Cache.pm_only := Some true;
                Cache.size := None;
                Cache.difficulty := None;
                Cache.terrain := None;
                Cache.hidden := None;
                Cache.author := None;
                Cache.location := None |}.
Proof.
  apply (proj1 (pm_only_row_is_yielded_without_details (Demo.site "results")
                  (Demo.pm_row 3) eq_refl)
           "Traditional Cache | GCD" "Traditional Cache " " GCD" []
           "Traditional Cache" "A premium cache" "12" 12%Z);
    reflexivity.
Defined.

(** ** The quick search *)

Section SearchQuickProperties.

Context {Area Tile Block : Type}.
Variable to_tiles : Area -> option Z -> M (list Tile).
Variable blocks : Tile -> M (list Block).
Variable from_block : Block -> Result Cache.t.
Variable in_area : option Point -> Area -> bool.

Lemma for_blocks_strict area bs :
  for_blocks from_block in_area area true bs
    = (List.filter (inside in_area area) (for_blocks from_block in_area area false bs).1,
       (for_blocks from_block in_area area false bs).2).
Proof.
  induction bs as [| block rest IH]; simpl; [reflexivity |].
  destruct (from_block block) as [cache | e]; simpl; [| reflexivity].
  rewrite IH.
  destruct (for_blocks from_block in_area area false rest) as [cs r]. simpl.
  unfold inside.
  destruct (in_area (Cache.location cache) area); reflexivity.
Qed.

Lemma for_tiles_strict area tiles st :
  for_tiles blocks from_block in_area area true tiles st
    = (List.filter (inside in_area area)
         (for_tiles blocks from_block in_area area false tiles st).1.1,
       (for_tiles blocks from_block in_area area false tiles st).1.2,
       (for_tiles blocks from_block in_area area false tiles st).2).
Proof.
  revert st. induction tiles as [| tile rest IH]; intros st; simpl; [reflexivity |].
  destruct (blocks tile st) as [[bs | e] st1]; simpl; [| reflexivity].
  rewrite for_blocks_strict.
  destruct (for_blocks from_block in_area area false bs) as [cs [[] | e]]; simpl;
    [| reflexivity].
  rewrite IH.
  destruct (for_tiles blocks from_block in_area area false rest st1)
    as [[cs' b] st2]. simpl.
  by rewrite List.filter_app.
Qed.

Lemma for_blocks_all area bs cs :
  constructs from_block bs = Return cs ->
  for_blocks from_block in_area area false bs = (cs, Return tt).
Proof.
  revert cs. induction bs as [| block rest IH]; intros cs; simpl.
  - intros [= <-]. reflexivity.
  - destruct (from_block block) as [cache | e]; simpl; [| discriminate].
    destruct (constructs from_block rest) as [caches | e]; simpl; [| discriminate].
    intros [= <-]. rewrite (IH caches eq_refl). reflexivity.
Qed.

Lemma constructs_app bs bs' cs :
  constructs from_block (bs ++ bs') = Return cs ->
  exists cs1 cs2,
    constructs from_block bs = Return cs1 /\ constructs from_block bs' = Return cs2 /\ cs = cs1 ++ cs2.
Proof.
  revert cs. induction bs as [| block rest IH]; intros cs; simpl.
  - intros H. exists [], cs. auto.
  - destruct (from_block block) as [cache | e]; simpl; [| discriminate].
    destruct (constructs from_block (rest ++ bs')) as [caches | e] eqn:Hc; simpl;
      [| discriminate].
    intros [= <-]. destruct (IH caches eq_refl) as (cs1 & cs2 & -> & H2 & ->).
    exists (cache :: cs1), cs2. auto.
Qed.

Lemma for_tiles_all area st tiles bss st' cs :
  exposes blocks st tiles bss st' ->
  constructs from_block (concat bss) = Return cs ->
  for_tiles blocks from_block in_area area false tiles st = (cs, BodyReturn, st').
Proof.
  intros Hx. revert cs.
  induction Hx as [st | st tile tiles bs bss st1 st2 Hb Hx IH]; intros cs; simpl.
  - intros [= <-]. reflexivity.
  - intros Hc. apply constructs_app in Hc as (cs1 & cs2 & H1 & H2 & ->).
    rewrite Hb, (for_blocks_all area bs cs1 H1), (IH cs2 H2). reflexivity.
Qed.

(** C9.  In strict mode [search_quick] yields no cache whose location is
    outside the area: it yields what it yields otherwise, less the caches
    outside, and ends and leaves the object the same way.  Without strict
    mode, when the tiles hand over their blocks and a cache is made from
    each, it yields every one of these caches, in order, and ends. *)
Theorem search_quick_strict_stays_inside (generator_stop : bool) (area : Area)
    (zoom : option Z) (st : State) :
  (forall cache,
      In cache (search_quick to_tiles blocks from_block in_area
                  generator_stop area true zoom st).1.1 ->
      in_area (Cache.location cache) area = true)
  /\ search_quick to_tiles blocks from_block in_area generator_stop area true zoom st
     = (List.filter (inside in_area area)
          (search_quick to_tiles blocks from_block in_area
             generator_stop area false zoom st).1.1,
        (search_quick to_tiles blocks from_block in_area
           generator_stop area false zoom st).1.2,
        (search_quick to_tiles blocks from_block in_area
           generator_stop area false zoom st).2)
  /\ (forall tiles st0 bss st1 caches,
         to_tiles area zoom st = (Return tiles, st0) ->
         exposes blocks st0 tiles bss st1 ->
         constructs from_block (concat bss) = Return caches ->
         search_quick to_tiles blocks from_block in_area
           generator_stop area false zoom st
           = (caches, Exhausted, st1)).
Proof.
  assert (Hstrict :
    search_quick to_tiles blocks from_block in_area generator_stop area true zoom st
     = (List.filter (inside in_area area)
          (search_quick to_tiles blocks from_block in_area
             generator_stop area false zoom st).1.1,
        (search_quick to_tiles blocks from_block in_area
           generator_stop area false zoom st).1.2,
        (search_quick to_tiles blocks from_block in_area
           generator_stop area false zoom st).2)).
  { unfold search_quick.
    destruct (to_tiles area zoom st) as [[tiles | e] st0]; [| reflexivity].
    rewrite for_tiles_strict.
    destruct (for_tiles blocks from_block in_area area false tiles st0)
      as [[cs b] st1]. reflexivity. }
  split; [| split; [exact Hstrict |]].
  - intros cache. rewrite Hstrict. simpl.
    intros Hin. apply List.filter_In in Hin. apply Hin.
  - intros tiles st0 bss st1 caches Ht Hx Hc. unfold search_quick.
    rewrite Ht, (for_tiles_all area st0 tiles bss st1 caches Hx Hc). reflexivity.
Qed.

End SearchQuickProperties.

Lemma search_quick_strict_stays_inside_witness :
  search_quick Demo.to_tiles Demo.blocks Demo.from_block Demo.in_area
    false ["north"] false None __init__
    = ([ Cache.mk (Some "GCA") None None None None None None None None None
           None None (Some {| format := "north" |});
         Cache.mk (Some "GCB") None None None None None None None None None
           None None (Some {| format := "east" |});
         Cache.mk (Some "GCC") None None None None None None None None None
           None None (Some {| format := "north" |}) ],
       Exhausted, __init__)
  /\ (search_quick Demo.to_tiles Demo.blocks Demo.from_block Demo.in_area
        false ["north"] true None __init__).1.1
     = [ Cache.mk (Some "GCA") None None None None None None None None None
           None None (Some {| format := "north" |});
         Cache.mk (Some "GCC") None None None None None None None None None
           None None (Some {| format := "north" |}) ].
Proof.
  split.
  - apply (proj2 (proj2 (search_quick_strict_stays_inside
                           Demo.to_tiles Demo.blocks Demo.from_block Demo.in_area
                           false ["north"] None __init__))
             Demo.tiles __init__ Demo.tiles __init__).
    + reflexivity.
    + repeat (eapply exposes_cons; [reflexivity |]). apply exposes_nil.
    + reflexivity.
  - reflexivity.
Defined.


(** ** The paged search *)
















(** Under PEP 479 the same run ends otherwise: the StopIteration that the
    body raises at the empty page reaches the consumer as a RuntimeError,
    after the same 20 caches. *)
Remark search_under_generator_stop :
  (search (Demo.site "results") true 2 Demo.here inf (Demo.logged_in "alice")).1
    = (map Demo.cache (seq 0 20),
       Failed (RuntimeError "generator raised StopIteration")).
Proof. vm_compute. reflexivity. Qed.




(** * Further properties *)

(** ** More on requests *)

(** X1.  Whatever the site and the libraries do, [_request] never lets a
    [RequestException] out. *)
Theorem request_never_raises_RequestException (E : Externals)
    (url expect method : string) (login_check : bool) (kwargs : Kwargs)
    (st : State) (cls : string) :
  (_request E url expect method login_check kwargs st).1
    <> Raise (RequestException cls).
Proof.
  unfold _request.
  destruct (login_check && negb (_logged_in st)); [discriminate |].
  destruct (session_request _ _ _ _ _ _) as [r session]. simpl.
  destruct (decode E expect r) as [l | e]; simpl; [discriminate |].
  destruct e; simpl; discriminate.
Qed.

(** X2.  [_request] never changes [_logged_in], and it is at most one
    HTTP call: the object is left as it was (the login check refused),
    or with one more call in its history, made through the session it
    had, to the resolved URL.  With the login check off the call is
    always made, logged in or not. *)
Theorem request_is_one_call (E : Externals) (url expect method : string)
    (login_check : bool) (kwargs : Kwargs) (st : State) :
  _logged_in (_request E url expect method login_check kwargs st).2
    = _logged_in st
  /\ ((_request E url expect method login_check kwargs st).2 = st
      \/ exists session,
           (_request E url expect method login_check kwargs st).2
             = sent st session method (resolve E url) kwargs)
  /\ (login_check = false \/ _logged_in st = true ->
      exists session,
        (_request E url expect method login_check kwargs st).2
          = sent st session method (resolve E url) kwargs).
Proof.
  unfold _request.
  destruct (login_check && negb (_logged_in st)) eqn:Hg.
  - simpl. split; [reflexivity |]. split; [by left |].
    intros [-> | Hin]; [discriminate |].
    rewrite Hin in Hg. destruct login_check; discriminate.
  - destruct (session_request _ _ _ _ _ _) as [r session]. simpl.
    split; [reflexivity |]. split; [right |]; eauto.
Qed.

Lemma request_is_one_call_witness :
  exists session,
    (_request (Demo.site "results") "login/default.aspx" "soup" "GET" false
       no_kwargs __init__).2
      = sent __init__ session "GET"
          (resolve (Demo.site "results") "login/default.aspx") no_kwargs.
Proof.
  apply (request_is_one_call (Demo.site "results") "login/default.aspx" "soup"
           "GET" false no_kwargs __init__).
  left. reflexivity.
Defined.

(** X3.  What [_request] returns is of the kind [expect] asks for: a
    document only for "soup", a JSON value only for "json", the response
    only for "raw", and [None] only for anything else. *)
Theorem request_returns_what_expect_asks (E : Externals)
    (url expect method : string) (login_check : bool) (kwargs : Kwargs)
    (st : State) (l : Loaded) :
  (_request E url expect method login_check kwargs st).1 = Return l ->
  match l with
  | LSoup _ => expect = "soup"
  | LJson _ => expect = "json"
  | LRaw _ => expect = "raw"
  | LNone => expect <> "soup" /\ expect <> "json" /\ expect <> "raw"
  end.
Proof.
  unfold _request.
  destruct (login_check && negb (_logged_in st)); [discriminate |].
  destruct (session_request _ _ _ _ _ _) as [r session]. simpl.
  unfold decode.
  destruct r as [res | e]; simpl;
    [| destruct (is_RequestException e); discriminate].
  destruct (raise_for_status res) as [e |]; simpl;
    [destruct (is_RequestException e); discriminate |].
  destruct (String.eqb_spec expect "soup") as [-> | Hs].
  { destruct (BeautifulSoup E (text res)) as [t | e]; simpl;
      [intros [= <-]; reflexivity
      | destruct (is_RequestException e); discriminate]. }
  destruct (String.eqb_spec expect "json") as [-> | Hj].
  { destruct (json res) as [v | e]; simpl;
      [intros [= <-]; reflexivity
      | destruct (is_RequestException e); discriminate]. }
  destruct (String.eqb_spec expect "raw") as [-> | Hr]; simpl;
    intros [= <-]; auto.
Qed.

Lemma request_returns_what_expect_asks_witness :
  (_request (Demo.site "results") "play/search/more-results" "json" "GET" true
     no_kwargs (Demo.logged_in "alice")).1
    = Return (LJson (VDict [("HtmlString", VStr "")]))
  /\ "json" = "json".
Proof.
  split; [reflexivity |].
  apply (request_returns_what_expect_asks (Demo.site "results")
           "play/search/more-results" "json" "GET" true no_kwargs
           (Demo.logged_in "alice") (LJson (VDict [("HtmlString", VStr "")]))).
  reflexivity.
Defined.

(** X4.  After a logout the object is logged out on a new session,
    whatever it was before, and what needs a login is refused without an
    HTTP call: a request with the login check on, and a search. *)
Theorem logout_closes_the_door (E : Externals) (st : State) :
  let out := {| _logged_in := false;
                _session := new_Session;
                trace := trace st ++ [EvLogout] |} in
  logout st = (Return tt, out)
  /\ (forall url expect method kwargs,
         (do _ <- logout; _request E url expect method true kwargs) st
           = (Raise (NotLoggedInException "Login is needed."), out))
  /\ (forall generator_stop fuel point limit,
         search E generator_stop (S fuel) point limit (logout st).2
           = ([], Failed (NotLoggedInException "Login is needed."), out)).
Proof.
  split; [reflexivity |]. split; [reflexivity |].
  intros generator_stop fuel point limit.
  unfold search. simpl. unfold _search_get_page, bind, _request. simpl.
  destruct generator_stop; reflexivity.
Qed.

(** ** Credentials *)

Lemma load_found E file :
  found_file E file ->
  _load_credentials E
    = (try credentials <- json_load E file;
       try username <- getitem credentials "username";
       try password <- getitem credentials "password";
       Return (username, password)).
Proof.
  unfold _load_credentials.
  intros [[Hc ->] | (Hc & Hh & ->)]; rewrite Hc; [| rewrite Hh]; reflexivity.
Qed.

(** X5.  With no user name or no password given and no credentials file
    in the current directory nor at home, [login] raises
    LoginFailedException and makes no HTTP call: the object is as it
    was. *)
Theorem login_without_credentials_file (E : Externals)
    (username password : PyVal) (st : State) :
  missing username password ->
  isfile E _credentials_file = false ->
  isfile E (home_join E _credentials_file) = false ->
  login E username password st
    = (Raise (LoginFailedException
                "Credentials file not found and no username and password is given."),
       st).
Proof.
  intros Hm Hc Hh. unfold login, bind at 1, lift at 1, credentials.
  unfold missing in Hm. rewrite Hm. unfold _load_credentials.
  rewrite Hc, Hh. reflexivity.
Qed.

Lemma login_without_credentials_file_witness :
  login (Demo.site "results") VNone VNone __init__
    = (Raise (LoginFailedException
                "Credentials file not found and no username and password is given."),
       __init__).
Proof.
  apply (login_without_credentials_file (Demo.site "results") VNone VNone __init__);
    reflexivity.
Defined.

(** X6.  With no user name or no password given and a credentials file
    found, [login] stops before any HTTP call when the file does not
    give both: a file that is no JSON (ValueError), that cannot be read
    (IOError), or whose object lacks "username" or "password", each
    raises LoginFailedException with its own message. *)
Theorem login_translates_credential_errors (E : Externals)
    (username password : PyVal) (st : State) (file : string) :
  missing username password ->
  found_file E file ->
  (json_load E file = Raise ValueError ->
   login E username password st
     = (Raise (LoginFailedException "Wrong format of credentials file."), st))
  /\ (json_load E file = Raise IOError ->
      login E username password st
        = (Raise (LoginFailedException "Credentials file reading error."), st))
  /\ (forall d,
         json_load E file = Return (VDict d) ->
         assoc_lookup "username" d = None \/ assoc_lookup "password" d = None ->
         login E username password st
           = (Raise (LoginFailedException
                       "Credentials file doesn't contain username and password."),
              st)).
Proof.
  intros Hm Hf. unfold missing in Hm.
  unfold login, bind at 1, lift at 1, credentials. rewrite Hm.
  rewrite (load_found E file Hf).
  split; [| split].
  - intros ->. reflexivity.
  - intros ->. reflexivity.
  - intros d -> Hd. simpl.
    destruct (assoc_lookup "username" d) as [u |]; simpl; [| reflexivity].
    destruct Hd as [Hd | Hd]; [discriminate |]. rewrite Hd. reflexivity.
Qed.

Lemma login_translates_credential_errors_witness :
  login (More.with_file (Return (VDict [("username", VStr "alice")])))
    VNone VNone __init__
    = (Raise (LoginFailedException
                "Credentials file doesn't contain username and password."),
       __init__).
Proof.
  apply (proj2 (proj2 (login_translates_credential_errors
                         (More.with_file (Return (VDict [("username", VStr "alice")])))
                         VNone VNone __init__ ".gc_credentials" eq_refl
                         (or_introl (conj eq_refl eq_refl))))
           [("username", VStr "alice")] eq_refl).
  right. reflexivity.
Defined.

(** X7.  A credentials file whose JSON is not an object is not covered by
    the handlers of [login]: subscripting it raises TypeError, and
    [login] lets that TypeError through, with no HTTP call made. *)
Theorem login_lets_TypeError_through (E : Externals)
    (username password : PyVal) (st : State) (file : string) (v : PyVal) :
  missing username password ->
  found_file E file ->
  json_load E file = Return v ->
  (forall d, v <> VDict d) ->
  login E username password st = (Raise TypeError, st).
Proof.
  intros Hm Hf Hj Hv. unfold missing in Hm.
  unfold login, bind at 1, lift at 1, credentials. rewrite Hm.
  rewrite (load_found E file Hf), Hj.
  destruct v; try reflexivity. exfalso. eapply Hv. reflexivity.
Qed.

Lemma login_lets_TypeError_through_witness :
  login (More.with_file (Return (VList [VStr "alice"; VStr "secret"])))
    VNone VNone __init__
    = (Raise TypeError, __init__).
Proof.
  apply (login_lets_TypeError_through
           (More.with_file (Return (VList [VStr "alice"; VStr "secret"])))
           VNone VNone __init__ ".gc_credentials"
           (VList [VStr "alice"; VStr "secret"]) eq_refl
           (or_introl (conj eq_refl eq_refl)) eq_refl).
  intros d. discriminate.
Defined.

(** X8.  When both a user name and a password are given, [login] does
    not look at the file system: it does the same on any other one. *)
Theorem login_with_credentials_ignores_files (E : Externals)
    (username password : PyVal) (st : State)
    (isfile' : string -> bool) (home_join' : string -> string)
    (json_load' : string -> Result PyVal) :
  truthy username = true ->
  truthy password = true ->
  login (on_files E isfile' home_join' json_load') username password st
    = login E username password st.
Proof.
  intros Hu Hp. unfold login, credentials. rewrite Hu, Hp. reflexivity.
Qed.

Lemma login_with_credentials_ignores_files_witness :
  login (More.with_file (Raise IOError)) (VStr "alice") (VStr "secret") __init__
    = login (Demo.site "results") (VStr "alice") (VStr "secret") __init__.
Proof.
  apply (login_with_credentials_ignores_files (Demo.site "results")
           (VStr "alice") (VStr "secret") __init__); reflexivity.
Defined.

(** X9.  [_load_credentials] reads the file in the current directory when
    there is one, and then what is at home does not matter; it gives the
    "username" and "password" entries of the file's object. *)
Theorem load_credentials_prefers_current_directory (E : Externals)
    (isfile' : string -> bool) (home_join' : string -> string)
    (json_load' : string -> Result PyVal) :
  isfile E _credentials_file = true ->
  isfile' _credentials_file = true ->
  json_load' _credentials_file = json_load E _credentials_file ->
  _load_credentials (on_files E isfile' home_join' json_load')
    = _load_credentials E
  /\ forall d u p,
       json_load E _credentials_file = Return (VDict d) ->
       assoc_lookup "username" d = Some u ->
       assoc_lookup "password" d = Some p ->
       _load_credentials E = Return (u, p).
Proof.
  intros Hc Hc' Hj. split.
  - unfold _load_credentials, on_files. cbn [isfile home_join json_load].
    rewrite Hc, Hc'. cbn [rbind]. rewrite Hj. reflexivity.
  - intros d u p Hd Hu Hp. unfold _load_credentials.
    rewrite Hc. cbn [rbind]. rewrite Hd. simpl. rewrite Hu. simpl.
    rewrite Hp. reflexivity.
Qed.

Lemma load_credentials_prefers_current_directory_witness :
  _load_credentials
    (More.with_file
       (Return (VDict [("password", VStr "secret"); ("username", VStr "alice")])))
    = Return (VStr "alice", VStr "secret").
Proof.
  apply (proj2 (load_credentials_prefers_current_directory
                  (More.with_file
                     (Return (VDict [("password", VStr "secret");
                                     ("username", VStr "alice")])))
                  (fun _ => true) (fun f => f)
                  (fun _ => Return (VDict [("password", VStr "secret");
                                           ("username", VStr "alice")]))
                  eq_refl eq_refl eq_refl)
           [("password", VStr "secret"); ("username", VStr "alice")]);
    reflexivity.
Defined.

(** ** What [login] leaves behind *)

Lemma lands_bind {A} (m : M A) (k : A -> M unit) :
  (forall a, lands_logged_in (k a)) -> lands_logged_in (bind m k).
Proof.
  intros Hk st. unfold bind. destruct (m st) as [[a | e] st1]; simpl.
  - apply Hk.
  - discriminate.
Qed.

Lemma lands_set_logged_in : lands_logged_in (set_logged_in true).
Proof. intros st _. reflexivity. Qed.

Lemma lands_raise e : lands_logged_in (raise e).
Proof. intros st. discriminate. Qed.

Lemma lands_submit E page u p : lands_logged_in (submit E page u p).
Proof.
  unfold submit. repeat (apply lands_bind; intros ?).
  destruct (opt_truthy _); [apply lands_set_logged_in |].
  apply lands_bind. intros _. apply lands_raise.
Qed.

(** X10.  Whenever [login] returns, the object is logged in; every other
    way out of [login] is an exception. *)
Theorem login_returns_logged_in (E : Externals) (username password : PyVal)
    (st : State) :
  (login E username password st).1 = Return tt ->
  _logged_in (login E username password st).2 = true.
Proof.
  revert st. change (lands_logged_in (login E username password)).
  unfold login. repeat (apply lands_bind; intros ?).
  destruct (opt_truthy _); [| apply lands_submit].
  destruct (logged_eq _ _); [apply lands_set_logged_in |].
  apply lands_bind. intros _. apply lands_submit.
Qed.

Lemma login_returns_logged_in_witness :
  _logged_in (login (Demo.site "results") (VStr "alice") (VStr "secret")
                (Demo.stale "bob")).2
    = true.
Proof.
  apply (login_returns_logged_in (Demo.site "results") (VStr "alice")
           (VStr "secret") (Demo.stale "bob")).
  vm_compute. reflexivity.
Defined.

(** ** The login form *)

Lemma name_dict_raises pairs acc e :
  name_dict pairs acc = Raise e -> e = KeyError.
Proof.
  revert acc. induction pairs as [| [field val] rest IH]; intros acc; simpl.
  - discriminate.
  - destruct (input_name field); [apply IH | congruence].
Qed.

Lemma name_value_dict_raises fields acc e :
  name_value_dict fields acc = Raise e -> e = KeyError.
Proof.
  revert acc. induction fields as [| field rest IH]; intros acc; simpl.
  - discriminate.
  - destruct (input_name field), (input_value field); try congruence. apply IH.
Qed.

Lemma name_dict_nameless pairs acc :
  Exists (fun fv => input_name fv.1 = None) pairs ->
  name_dict pairs acc = Raise KeyError.
Proof.
  intros Hex. revert acc.
  induction Hex as [[field val] rest Hn | [field val] rest Hex IH]; intros acc; simpl.
  - simpl in Hn. rewrite Hn. reflexivity.
  - destruct (input_name field); [apply IH | reflexivity].
Qed.

Lemma name_value_dict_nameless fields acc :
  Exists (fun f => input_name f = None \/ input_value f = None) fields ->
  name_value_dict fields acc = Raise KeyError.
Proof.
  intros Hex. revert acc.
  induction Hex as [field rest Hn | field rest Hex IH]; intros acc; simpl.
  - destruct Hn as [-> | Hv]; [reflexivity |].
    rewrite Hv. destruct (input_name field); reflexivity.
  - destruct (input_name field), (input_value field); try reflexivity. apply IH.
Qed.

Lemma zip_take_exists (P : Input -> Prop) (vals : list PyVal) (l : list Input) :
  Exists P (take (length vals) l) ->
  Exists (fun fv => P fv.1) (zip l vals).
Proof.
  revert l. induction vals as [| v vs IH]; intros [| f l]; simpl;
    intros Hex; try (by inversion Hex).
  apply Exists_cons in Hex as [Hf | Hex].
  - by apply Exists_cons_hd.
  - apply Exists_cons_tl. by apply IH.
Qed.

(** X11.  The form is filled by position.  When the page has at least
    three text/password/checkbox inputs, with three different names that
    no hidden or submit input has, and every hidden or submit input has
    a name and a value, the form is assembled and gives the user name
    under the first name, the password under the second and 1 under the
    third; inputs of these kinds after the third are left out, named or
    not. *)
Theorem form_is_filled_by_position (page : Tag) (username password : PyVal)
    (f1 f2 f3 : Input) (more : list Input) (n1 n2 n3 : string)
    (d : gmap string PyVal) :
  login_elements page = f1 :: f2 :: f3 :: more ->
  input_name f1 = Some n1 ->
  input_name f2 = Some n2 ->
  input_name f3 = Some n3 ->
  n1 <> n2 -> n1 <> n3 -> n2 <> n3 ->
  name_value_dict (other_elements page) ∅ = Return d ->
  d !! n1 = None -> d !! n2 = None -> d !! n3 = None ->
  exists post,
    assemble_post page username password = Return post
    /\ post !! n1 = Some username
    /\ post !! n2 = Some password
    /\ post !! n3 = Some (VInt 1)
    /\ forall k v, d !! k = Some v -> post !! k = Some v.
Proof.
  unfold login_elements, other_elements.
  intros Hl H1 H2 H3 H12 H13 H23 Hd Hd1 Hd2 Hd3.
  unfold assemble_post. rewrite Hl.
  replace (zip (f1 :: f2 :: f3 :: more) [username; password; VInt 1])
    with [(f1, username); (f2, password); (f3, VInt 1)]
    by (destruct more; reflexivity).
  simpl. rewrite H1, H2, H3. simpl.
  rewrite Hd. simpl. eexists. split; [reflexivity |].
  repeat split.
  - rewrite lookup_union_r by exact Hd1. rewrite lookup_union_l by apply lookup_empty.
    rewrite !lookup_insert_ne by congruence. apply lookup_insert_eq.
  - rewrite lookup_union_r by exact Hd2. rewrite lookup_union_l by apply lookup_empty.
    rewrite lookup_insert_ne by congruence. apply lookup_insert_eq.
  - rewrite lookup_union_r by exact Hd3. rewrite lookup_union_l by apply lookup_empty.
    apply lookup_insert_eq.
  - intros k v Hk. by apply lookup_union_Some_l.
Qed.

Lemma form_is_filled_by_position_witness :
  exists post,
    assemble_post (Demo.login_page None) (VStr "alice") (VStr "secret") = Return post
    /\ post !! "user" = Some (VStr "alice")
    /\ post !! "pass" = Some (VStr "secret")
    /\ post !! "remember" = Some (VInt 1)
    /\ forall k v,
         (<[ "go" := VStr "Sign in" ]> {[ "token" := VStr "t0" ]}
          : gmap string PyVal) !! k = Some v ->
         post !! k = Some v.
Proof.
  apply (form_is_filled_by_position (Demo.login_page None) (VStr "alice")
           (VStr "secret")
           (mkInput (Some "text") (Some "user") None)
           (mkInput (Some "password") (Some "pass") None)
           (mkInput (Some "checkbox") (Some "remember") None)
           [] "user" "pass" "remember");
    try reflexivity; discriminate.
Defined.

(** X12.  The form needs every name it uses.  When one of the first
    three text/password/checkbox inputs has no name, or a hidden or
    submit input has no name or no value, assembling the form raises
    KeyError, and [submit] raises it without any HTTP call; the form
    raises nothing but KeyError. *)
Theorem form_needs_names (E : Externals) (page : Tag) (username password : PyVal)
    (st : State) :
  (Exists (fun f => input_name f = None) (take 3 (login_elements page))
   \/ Exists (fun f => input_name f = None \/ input_value f = None)
        (other_elements page) ->
   submit E page username password st = (Raise KeyError, st))
  /\ (forall e, assemble_post page username password = Raise e -> e = KeyError).
Proof.
  split.
  - intros Hex.
    assert (Ha : assemble_post page username password = Raise KeyError).
    { unfold assemble_post. fold (login_elements page). fold (other_elements page).
      destruct (name_dict (zip (login_elements page) [username; password; VInt 1]) ∅)
        as [d |e] eqn:Hd; simpl.
      - destruct Hex as [Hex | Hex].
        + rewrite name_dict_nameless in Hd; [discriminate |].
          exact (zip_take_exists _ [username; password; VInt 1] _ Hex).
        + rewrite name_value_dict_nameless by exact Hex. reflexivity.
      - by rewrite (name_dict_raises _ _ _ Hd). }
    unfold submit, bind, lift. rewrite Ha. reflexivity.
  - intros e. unfold assemble_post.
    destruct (name_dict _ _) as [d | e1] eqn:Hd; simpl.
    + destruct (name_value_dict _ _) as [d' | e2] eqn:Hd'; simpl; [discriminate |].
      intros [= <-]. exact (name_value_dict_raises _ _ _ Hd').
    + intros [= <-]. exact (name_dict_raises _ _ _ Hd).
Qed.

Lemma form_needs_names_witness :
  submit (Demo.site "results")
    (mkTag true None [mkInput (Some "text") None None] None [])
    (VStr "alice") (VStr "secret") __init__
    = (Raise KeyError, __init__).
Proof.
  apply (proj1 (form_needs_names (Demo.site "results")
                  (mkTag true None [mkInput (Some "text") None None] None [])
                  (VStr "alice") (VStr "secret") __init__)).
  left. apply Exists_cons_hd. reflexivity.
Defined.

(** ** More on rows *)

Lemma split_no_separator sep s :
  contains (String sep "") s = false -> split sep s = [s].
Proof.
  induction s as [| c s IH]; simpl; [reflexivity |].
  destruct (Ascii.eqb_spec c sep) as [-> | Hne]; simpl.
  - rewrite Ascii.eqb_refl. destruct s; discriminate.
  - replace (Ascii.eqb sep c) with false
      by (symmetry; apply Ascii.eqb_neq; congruence).
    simpl. intros Hc. rewrite (IH Hc). reflexivity.
Qed.

(** X13.  A row with no "cache-details" span raises AttributeError, and
    one whose details have no "|" raises IndexError: there is no
    waypoint to make a cache of, and nothing is yielded for the row. *)
Theorem row_without_waypoint_raises (E : Externals) (row : Row) :
  (span_cache_details row = None -> parse_row E row = Raise AttributeError)
  /\ (forall details,
         span_cache_details row = Some details ->
         contains "|" details = false ->
         parse_row E row = Raise IndexError).
Proof.
  split.
  - intros H. unfold parse_row, parse_common. rewrite H. reflexivity.
  - intros details H Hc. unfold parse_row, parse_common. rewrite H. simpl.
    rewrite (split_no_separator "|" details Hc). reflexivity.
Qed.

Lemma row_without_waypoint_raises_witness :
  parse_row (Demo.site "results")
    (mkRow (Some "Traditional Cache GC1234") (Some "A cache") false (Some "7")
       None false None None None None None)
    = Raise IndexError.
Proof.
  apply (proj2 (row_without_waypoint_raises (Demo.site "results")
                  (mkRow (Some "Traditional Cache GC1234") (Some "A cache") false
                     (Some "7") None false None None None None None))
           "Traditional Cache GC1234"); reflexivity.
Defined.

(** X14.  A row without the PM-only marker, whose columns are all there
    and parse, yields a cache with the twelve attributes set: the seven
    common ones, pm_only false, and size, difficulty, terrain, hidden
    date and author, the author being the owner text less its first
    three characters. *)
Theorem full_row_sets_every_attribute (E : Externals) (row : Row)
    (details d0 d1 : string) (ds : list string) (type : CacheType) (name : string)
    (favorites_text : string) (favorites : Z)
    (size_text : string) (size : CacheSize)
    (difficulty_text terrain_text : string) (difficulty terrain : PyFloat)
    (hidden_text : string) (hidden : Date) (owner : string) :
  td_pm_upsell row = false ->
  span_cache_details row = Some details ->
  split "|" details = d0 :: d1 :: ds ->
  Type_from_string E (strip d0) = Return type ->
  span_cache_name row = Some name ->
  col_FavoritePoint row = Some favorites_text ->
  int E favorites_text = Return favorites ->
  col_ContainerSize row = Some size_text ->
  Size_from_string E size_text = Return size ->
  col_Difficulty row = Some difficulty_text ->
  float E difficulty_text = Return difficulty ->
  col_Terrain row = Some terrain_text ->
  float E terrain_text = Return terrain ->
  col_PlaceDate row = Some hidden_text ->
  parse_date E hidden_text = Return hidden ->
  span_owner row = Some owner ->
  parse_row E row
    = Return {| Cache.wp := Some (strip d1);
                Cache.type := Some type;
                Cache.name := Some name;
                Cache.found := Some (img_found_it row);
                Cache.favorites := Some favorites;
                Cache.state := Some (negb (disabled row));
                Cache.pm_only := Some false;
                Cache.size := Some size;
                Cache.difficulty := Some difficulty;
                Cache.terrain := Some terrain;
                Cache.hidden := Some hidden;
                Cache.author := Some (slice_from 3 owner);
                Cache.location := None |}.
Proof.
  intros Hpm Hd Hs Ht Hn Hf Hi Hsz Hsize Hdt Hdiff Htt Hterr Hht Hhid Ho.
  unfold parse_row, parse_common, text_of.
  rewrite Hd. simpl. rewrite Hs, Ht. simpl. rewrite Hn. simpl.
  rewrite Hf. simpl. rewrite Hi. simpl. rewrite Hpm. simpl.
  unfold parse_details, text_of.
  rewrite Hsz. simpl. rewrite Hsize. simpl. rewrite Hdt. simpl.
  rewrite Hdiff. simpl. rewrite Htt. simpl. rewrite Hterr. simpl.
  rewrite Hht. simpl. rewrite Hhid. simpl. rewrite Ho. reflexivity.
Qed.

Lemma full_row_sets_every_attribute_witness :
  parse_row (Demo.site "results") (Demo.row 2) = Return (Demo.cache 2).
Proof.
  apply (full_row_sets_every_attribute (Demo.site "results") (Demo.row 2)
           "Traditional Cache | GCC" "Traditional Cache " " GCC" []
           "Traditional Cache" "A cache" "7" 7%Z "small" "small"
           "1.5" "2.0" "1.5" "2.0" "10/01/2015" (mkDate 2015 10 1) "by someone");
    reflexivity.
Defined.

(** Follow [parse_details] through each of its steps that can raise. *)
Ltac parse_details_steps E row :=
  unfold parse_details, text_of;
  destruct (col_ContainerSize row) as [?x |]; simpl; [| discriminate];
  match goal with
  | |- context [Size_from_string E ?s] =>
      destruct (Size_from_string E s); simpl; [| discriminate]
  end;
  destruct (col_Difficulty row) as [?y |]; simpl; [| discriminate];
  match goal with
  | |- context [float E ?s] => destruct (float E s); simpl; [| discriminate]
  end;
  destruct (col_Terrain row) as [?z |]; simpl; [| discriminate];
  match goal with
  | |- context [float E ?s] => destruct (float E s); simpl; [| discriminate]
  end;
  destruct (col_PlaceDate row) as [?w |]; simpl; [| discriminate];
  match goal with
  | |- context [parse_date E ?s] => destruct (parse_date E s); simpl; [| discriminate]
  end;
  destruct (span_owner row); simpl; [| discriminate];
  intros [= <-].

(** X15.  A row is enabled unless its class list has "disabled": with no
    class attribute or an empty one the state is true, otherwise it is
    false exactly when "disabled" is among the classes. *)
Theorem state_is_not_disabled (E : Externals) (row : Row) (c : Cache.t) :
  parse_row E row = Return c ->
  Cache.state c
    = Some match row_class row with
           | None => true
           | Some classes => negb (bool_decide ("disabled" ∈ classes))
           end.
Proof.
  assert (Hstate : forall c0, parse_common E row = Return c0 ->
                              Cache.state c0 = Some (negb (disabled row))).
  { intros c0. parse_common_steps E row. reflexivity. }
  assert (Hdis : negb (disabled row)
                 = match row_class row with
                   | None => true
                   | Some classes => negb (bool_decide ("disabled" ∈ classes))
                   end).
  { unfold disabled. destruct (row_class row) as [[| cl cls] |]; try reflexivity.
    f_equal. apply eq_true_iff_eq. rewrite bool_decide_eq_true.
    rewrite existsb_exists. split.
    - intros (x & Hin & Hx). apply String.eqb_eq in Hx as <-.
      by apply list_elem_of_In.
    - intros Hin. exists "disabled". split; [by apply list_elem_of_In |].
      apply String.eqb_refl. }
  unfold parse_row.
  destruct (parse_common E row) as [c0 | e] eqn:Hc; simpl; [| discriminate].
  specialize (Hstate c0 eq_refl). rewrite Hdis in Hstate.
  destruct (Cache.pm_only c0) as [[] |];
    [intros [= <-]; exact Hstate | |];
    parse_details_steps E row; exact Hstate.
Qed.

Lemma state_is_not_disabled_witness :
  Cache.state (Demo.cache 2) = Some true.
Proof.
  apply (state_is_not_disabled (Demo.site "results") (Demo.row 2) (Demo.cache 2)).
  reflexivity.
Defined.

(** ** More on the paged search *)

Lemma enumerate_app {A} (l k : list A) start :
  enumerate (l ++ k) start = enumerate l start ++ enumerate k (start + length l).
Proof.
  revert start. induction l as [| a l IH]; intros start; simpl.
  - by rewrite Nat.add_0_r.
  - rewrite IH. do 3 f_equal. lia.
Qed.

(** A row that does not parse ends the loop over the page with its
    exception, after the rows before it. *)
Lemma for_rows_raises E before row rest start start_index limit cs e :
  parse_rows E before = Return cs ->
  parse_row E row = Raise e ->
  allows limit (S (length before)) ->
  for_rows E (enumerate (before ++ row :: rest) start) start_index limit
    = (cs, Raise e).
Proof.
  revert start start_index limit cs.
  induction before as [| r before IH]; intros start start_index limit cs; simpl.
  - intros [= <-] He Ha. rewrite He.
    replace (negative (decrement limit)) with false; [reflexivity |].
    destruct limit; simpl in *; [reflexivity |]. symmetry. apply Z.ltb_ge. lia.
  - destruct (parse_row E r) as [c |]; simpl; [| discriminate].
    destruct (parse_rows E before) as [cs' |] eqn:Hb; simpl; [| discriminate].
    intros [= <-] He Ha.
    replace (negative (decrement limit)) with false.
    + rewrite (IH (S start) start (decrement limit) cs' eq_refl He); [reflexivity |].
      destruct limit; simpl in *; [exact I | lia].
    + destruct limit; simpl in *; [reflexivity |]. symmetry. apply Z.ltb_ge. lia.
Qed.

(** X16.  A row that does not parse is not skipped: the search yields
    the caches of the rows before it, then fails with the exception the
    row raised, and fetches no further page. *)
Theorem search_fails_at_bad_row (E : Externals) (generator_stop : bool)
    (fuel : nat) (point : Point) (limit : Limit) (st st1 : State) (page : Tag)
    (before rest : list Row) (row : Row) (cs : list Cache.t) (e : exn) :
  _search_get_page E point 0 st = (Return (Some page), st1) ->
  tag_bool page = true ->
  tag_trs page = before ++ row :: rest ->
  parse_rows E before = Return cs ->
  parse_row E row = Raise e ->
  e <> StopIteration ->
  allows limit (S (length before)) ->
  search E generator_stop (S fuel) point limit st = (cs, Failed e, st1).
Proof.
  intros Hp Hb Hrows Hc He Hne Ha. unfold search. simpl.
  rewrite Hp. simpl. rewrite Hb. simpl. rewrite Hrows.
  rewrite (for_rows_raises E before row rest 0 0 limit cs e Hc He Ha).
  simpl. destruct e; try reflexivity. congruence.
Qed.

Lemma search_fails_at_bad_row_witness :
  (search More.broken false 1 Demo.here inf (Demo.logged_in "alice")).1
    = ([Demo.cache 0; Demo.cache 1], Failed ValueError).
Proof.
  rewrite (search_fails_at_bad_row More.broken false 0 Demo.here inf
             (Demo.logged_in "alice")
             (_search_get_page More.broken Demo.here 0 (Demo.logged_in "alice")).2
             (Demo.table (Demo.rows 2 ++ More.bad_row :: Demo.rows 1))
             (Demo.rows 2) (Demo.rows 1) More.bad_row
             [Demo.cache 0; Demo.cache 1] ValueError);
    first [reflexivity | discriminate | exact I].
Defined.

(** Where [_request] leaves the object. *)
Lemma _request_state E url expect method login_check kwargs st :
  (_request E url expect method login_check kwargs st).2
    = if login_check && negb (_logged_in st) then st
      else sent st
             (session_request E (trace st) (_session st) method (resolve E url)
                kwargs).2
             method (resolve E url) kwargs.
Proof.
  unfold _request. destruct (login_check && negb (_logged_in st)); [reflexivity |].
  destruct (session_request _ _ _ _ _ _). reflexivity.
Qed.

(** Steps that leave the object alone. *)
Lemma bind_state {A B} (m : M A) (k : A -> M B) st :
  (forall a s, (k a s).2 = s) -> (bind m k st).2 = (m st).2.
Proof.
  intros Hk. unfold bind. destruct (m st) as [[a | e] s]; simpl; [apply Hk | reflexivity].
Qed.

Lemma lift_state {A} (r : Result A) s : (lift r s).2 = s.
Proof. reflexivity. Qed.

(** What a fetch does to the object: what its one [_request] does, to the
    search page for index 0 and to the continuation endpoint, with the
    index as startIndex, for the others. *)
Lemma _search_get_page_state E point start_index st :
  (_search_get_page E point start_index st).2
    = (_request E
         (_urls (if (start_index =? 0)%nat then "search" else "search_more"))
         (if (start_index =? 0)%nat then "soup" else "json") "GET" true
         (if (start_index =? 0)%nat
          then {| params := Some {[ "origin" := VStr (format point) ]};
                  data := None |}
          else more_params point start_index) st).2.
Proof.
  unfold _search_get_page, more_params.
  destruct (start_index =? 0)%nat; apply bind_state; intros l s.
  - rewrite bind_state; [reflexivity | reflexivity].
  - rewrite bind_state; [reflexivity |]. intros v s1.
    rewrite bind_state; [reflexivity |]. intros html s2.
    rewrite bind_state; [reflexivity | reflexivity].
Qed.

(** X17.  The search only reads: whatever the site answers and however
    the search ends, [_logged_in] is as before, and what the history
    gained is GET requests to the search page or to the continuation
    endpoint; no POST, no logout. *)
Theorem search_only_reads (E : Externals) (generator_stop : bool) (fuel : nat)
    (point : Point) (limit : Limit) (st : State) :
  _logged_in (search E generator_stop fuel point limit st).2 = _logged_in st
  /\ exists t,
       trace (search E generator_stop fuel point limit st).2 = trace st ++ t
       /\ Forall (search_request E) t.
Proof.
  unfold search.
  assert (H : forall fuel start_index limit st,
             _logged_in (search_body E fuel point start_index limit st).2
               = _logged_in st
             /\ exists t,
                  trace (search_body E fuel point start_index limit st).2
                    = trace st ++ t
                  /\ Forall (search_request E) t).
  { clear. intros fuel. induction fuel as [| fuel IH]; intros start_index limit st.
    - simpl. split; [reflexivity |]. exists []. by rewrite app_nil_r.
    - simpl.
      assert (Hst : _logged_in (_search_get_page E point start_index st).2
                      = _logged_in st
                    /\ exists t,
                         trace (_search_get_page E point start_index st).2
                           = trace st ++ t
                         /\ Forall (search_request E) t).
      { rewrite _search_get_page_state, _request_state.
        destruct (true && negb (_logged_in st)).
        - split; [reflexivity |]. exists []. by rewrite app_nil_r.
        - split; [reflexivity |]. eexists. split; [reflexivity |].
          constructor; [| constructor].
          eexists _, _, _. split; [reflexivity |].
          destruct (start_index =? 0)%nat; auto. }
      destruct (_search_get_page E point start_index st) as [[page | e] st1];
        simpl in *; [| exact Hst].
      destruct (not_page page); [exact Hst |].
      destruct (for_rows E _ start_index limit) as [cs [[s' l'] | e]];
        [| exact Hst].
      specialize (IH (s' + 1) l' st1).
      destruct (search_body E fuel point (s' + 1) l' st1) as [[cs' b] st2].
      simpl in *. destruct Hst as (Hl & t & Ht & Hall).
      destruct IH as (Hl' & t' & Ht' & Hall').
      split; [congruence |]. exists (t ++ t').
      split; [by rewrite Ht', Ht, app_assoc | by apply Forall_app]. }
  specialize (H fuel 0 limit st).
  destruct (search_body E fuel point 0 limit st) as [[cs b] st']. exact H.
Qed.





(** ** The logged user *)

(** X20.  Without a page, or with one that tests false, [get_logged_user]
    fetches the login page itself, with the login check off, so also
    while logged out, and reads the marker there; a page handed over that
    tests false is not looked at. *)
Theorem get_logged_user_fetches_the_page (E : Externals) (st : State)
    (supplied : option Tag) (page : Tag) (session : Session) :
  not_page supplied = true ->
  loads E st "GET" (_urls "login_page") no_kwargs page session ->
  get_logged_user E supplied st
    = (Return (marker_text page),
       sent st session "GET" (resolve E (_urls "login_page")) no_kwargs).
Proof.
  intros Hn Hl. unfold get_logged_user, bind at 1.
  assert (Hfetch :
    (do l <- _request E (_urls "login_page") "soup" "GET" false no_kwargs;
     lift (soup_of l)) st
      = (Return page,
         sent st session "GET" (resolve E (_urls "login_page")) no_kwargs)).
  { unfold bind.
    rewrite (_request_loads E st "GET" _ false no_kwargs page session eq_refl Hl).
    reflexivity. }
  destruct supplied as [p |]; simpl in Hn.
  - destruct (tag_bool p); [discriminate |]. rewrite Hfetch. reflexivity.
  - rewrite Hfetch. reflexivity.
Qed.

Lemma get_logged_user_fetches_the_page_witness :
  get_logged_user (Demo.site "results") None (Demo.stale "bob")
    = (Return (Some "bob"),
       sent (Demo.stale "bob") (_session (Demo.stale "bob")) "GET"
         (resolve (Demo.site "results") (_urls "login_page")) no_kwargs).
Proof.
  apply (get_logged_user_fetches_the_page (Demo.site "results") (Demo.stale "bob")
           None (Demo.login_page (Some "bob")) (_session (Demo.stale "bob"))).
  - reflexivity.
  - exists (Demo.html "login:bob"). repeat split; reflexivity.
Defined.

(** ** Continuation pages *)

(** X21.  A continuation answer must be a JSON object with a str under
    "HtmlString".  When the request went through and gave the JSON value
    [v], the fetch raises TypeError for a [v] that is no object, KeyError
    for an object without "HtmlString", and AttributeError for an
    "HtmlString" that is no str; the one HTTP call stays in the history. *)
Theorem continuation_needs_HtmlString (E : Externals) (point : Point)
    (start_index : nat) (st : State) (res : Response) (session : Session)
    (v : PyVal) :
  start_index <> 0 ->
  _logged_in st = true ->
  session_request E (trace st) (_session st) "GET" (resolve E (_urls "search_more"))
    (more_params point start_index) = (Return res, session) ->
  raise_for_status res = None ->
  json res = Return v ->
  _search_get_page E point start_index st
    = (match v with
       | VDict d =>
           match assoc_lookup "HtmlString" d with
           | None => Raise KeyError
           | Some (VStr html) =>
               try page <- BeautifulSoup E (strip html); Return (Some page)
           | Some _ => Raise AttributeError
           end
       | _ => Raise TypeError
       end,
       sent st session "GET" (resolve E (_urls "search_more"))
         (more_params point start_index)).
Proof.
  intros Hs Hin Hr Hst Hj. unfold _search_get_page.
  apply Nat.eqb_neq in Hs. rewrite Hs. unfold bind at 1.
  fold (more_params point start_index).
  rewrite (_request_through E _ "json" "GET" true _ st (Return res) session);
    [| unfold passes_login_check; by rewrite Hin | exact Hr].
  unfold decode. simpl. rewrite Hst, Hj. simpl.
  unfold bind, lift. simpl.
  destruct v as [| | | | | | d]; try reflexivity. simpl.
  destruct (assoc_lookup "HtmlString" d) as [[| | | | html | |] |]; try reflexivity.
  simpl. destruct (BeautifulSoup E (strip html)); reflexivity.
Qed.

Lemma continuation_needs_HtmlString_witness :
  (_search_get_page More.bare Demo.here 20 (Demo.logged_in "alice")).1
    = Raise KeyError.
Proof.
  rewrite (continuation_needs_HtmlString More.bare Demo.here 20
             (Demo.logged_in "alice")
             {| raise_for_status := None; text := "{}"; json := Return (VDict []) |}
             (_session (Demo.logged_in "alice")) (VDict []));
    first [reflexivity | discriminate].
Defined.

(** ** More on the quick search *)

Section SearchQuickFailure.

Context {Area Tile Block : Type}.
Variable to_tiles : Area -> option Z -> M (list Tile).
Variable blocks : Tile -> M (list Block).
Variable from_block : Block -> Result Cache.t.
Variable in_area : option Point -> Area -> bool.

Lemma for_blocks_raises area bs1 block bs2 cs e :
  constructs from_block bs1 = Return cs ->
  from_block block = Raise e ->
  for_blocks from_block in_area area false (bs1 ++ block :: bs2) = (cs, Raise e).
Proof.
  revert cs. induction bs1 as [| b bs1 IH]; intros cs; simpl.
  - intros [= <-] ->. reflexivity.
  - destruct (from_block b) as [c |]; simpl; [| discriminate].
    destruct (constructs from_block bs1) as [cs' |]; simpl; [| discriminate].
    intros [= <-] He. rewrite (IH cs' eq_refl He). reflexivity.
Qed.

Lemma for_tiles_raises area st tiles1 bss st1 tile tiles2 bs1 block bs2 st2 cs1 cs2 e :
  exposes blocks st tiles1 bss st1 ->
  constructs from_block (concat bss) = Return cs1 ->
  blocks tile st1 = (Return (bs1 ++ block :: bs2), st2) ->
  constructs from_block bs1 = Return cs2 ->
  from_block block = Raise e ->
  for_tiles blocks from_block in_area area false (tiles1 ++ tile :: tiles2) st
    = (cs1 ++ cs2, BodyRaise e, st2).
Proof.
  intros Hx. revert cs1.
  induction Hx as [st | st t ts bs bss st' st1 Hb Hx IH]; intros cs1 Hc1 Hb2 Hc2 He;
    simpl.
  - injection Hc1 as <-. rewrite Hb2.
    rewrite (for_blocks_raises area bs1 block bs2 cs2 e Hc2 He). reflexivity.
  - simpl in Hc1. apply constructs_app in Hc1 as (ca & cb & Ha & Hcb & ->).
    rewrite Hb, (for_blocks_all from_block in_area area bs ca Ha).
    rewrite (IH cb Hcb Hb2 Hc2 He). by rewrite app_assoc.
Qed.

(** X22.  A block that no cache can be made of ends the quick search:
    the caches made before it are yielded (in strict mode, those of them
    inside the area), the search fails with the exception of the block,
    and the tiles after it are not asked for their blocks. *)
Theorem search_quick_fails_at_bad_block (generator_stop strict : bool)
    (area : Area) (zoom : option Z) (st st0 st1 st2 : State)
    (tiles1 tiles2 : list Tile) (tile : Tile) (bss : list (list Block))
    (bs1 bs2 : list Block) (block : Block) (cs1 cs2 : list Cache.t) (e : exn) :
  to_tiles area zoom st = (Return (tiles1 ++ tile :: tiles2), st0) ->
  exposes blocks st0 tiles1 bss st1 ->
  constructs from_block (concat bss) = Return cs1 ->
  blocks tile st1 = (Return (bs1 ++ block :: bs2), st2) ->
  constructs from_block bs1 = Return cs2 ->
  from_block block = Raise e ->
  e <> StopIteration ->
  search_quick to_tiles blocks from_block in_area generator_stop area strict zoom st
    = (if strict then List.filter (inside in_area area) (cs1 ++ cs2)
       else cs1 ++ cs2,
       Failed e, st2).
Proof.
  intros Ht Hx Hc1 Hb Hc2 He Hne.
  assert (Hfalse :
    for_tiles blocks from_block in_area area false (tiles1 ++ tile :: tiles2) st0
      = (cs1 ++ cs2, BodyRaise e, st2)).
  { exact (for_tiles_raises area st0 tiles1 bss st1 tile tiles2 bs1 block bs2 st2
             cs1 cs2 e Hx Hc1 Hb Hc2 He). }
  unfold search_quick. rewrite Ht.
  destruct strict.
  - rewrite (for_tiles_strict blocks from_block in_area), Hfalse. simpl.
    destruct e; try reflexivity. congruence.
  - rewrite Hfalse. destruct e; try reflexivity. congruence.
Qed.

End SearchQuickFailure.

Lemma search_quick_fails_at_bad_block_witness :
  search_quick More.to_tiles Demo.blocks More.from_block Demo.in_area
    false ["north"] true None __init__
  = ([ Cache.mk (Some "GCA") None None None None None None None None None
         None None (Some {| format := "north" |});
       Cache.mk (Some "GCC") None None None None None None None None None
         None None (Some {| format := "north" |}) ],
     Failed ValueError, __init__).
Proof.
  apply (search_quick_fails_at_bad_block More.to_tiles Demo.blocks More.from_block
           Demo.in_area false true ["north"] None __init__ __init__ __init__ __init__
           [[("GCA", "north"); ("GCB", "east")]] [[("GCE", "north")]]
           [("GCC", "north"); ("", "north"); ("GCD", "north")]
           [[("GCA", "north"); ("GCB", "east")]]
           [("GCC", "north")] [("GCD", "north")] ("", "north")
           [ Cache.mk (Some "GCA") None None None None None None None None None
               None None (Some {| format := "north" |});
             Cache.mk (Some "GCB") None None None None None None None None None
               None None (Some {| format := "east" |}) ]
           [ Cache.mk (Some "GCC") None None None None None None None None None
               None None (Some {| format := "north" |}) ]
           ValueError);
    try reflexivity.
  - eapply exposes_cons; [reflexivity | apply exposes_nil].
  - discriminate.
Defined.

(** ** When the login page cannot be fetched *)

(** X23.  When the GET of the login page fails in the transport,
    [login] raises [Error] with the URL of the login page and does
    nothing else: no logout, no POST, and [_logged_in] is what it was. *)
Theorem login_fails_with_the_login_page (E : Externals)
    (username password : PyVal) (st : State) (u p : PyVal) (cls : string)
    (session : Session) :
  credentials E username password = Return (u, p) ->
  session_request E (trace st) (_session st) "GET"
    (resolve E (_urls "login_page")) no_kwargs
    = (Raise (RequestException cls), session) ->
  login E username password st
    = (Raise (Error ("Cannot load page: " +:+ resolve E (_urls "login_page"))),
       sent st session "GET" (resolve E (_urls "login_page")) no_kwargs).
Proof.
  intros Hc Hr. unfold login, bind at 1, lift at 1. rewrite Hc. simpl.
  unfold bind at 1.
  rewrite (_request_through E _ "soup" "GET" false no_kwargs st _ session
             eq_refl Hr).
  reflexivity.
Qed.

Lemma login_fails_with_the_login_page_witness :
  login More.offline (VStr "alice") (VStr "secret") (Demo.logged_in "alice")
    = (Raise (Error "Cannot load page: https://www.geocaching.com/login/default.aspx"),
       sent (Demo.logged_in "alice") (_session (Demo.logged_in "alice")) "GET"
         "https://www.geocaching.com/login/default.aspx" no_kwargs).
Proof.
  apply (login_fails_with_the_login_page More.offline (VStr "alice")
           (VStr "secret") (Demo.logged_in "alice") (VStr "alice") (VStr "secret")
           "ConnectionError" (_session (Demo.logged_in "alice")));
    reflexivity.
Defined.
